(** * eCommerce ETL pipeline: extract, transform and analytics

    A shallow embedding of [scripts/extract.py] (the flattener
    [extract_from_api]) and [scripts/transform.py] (the normalizer
    [clean_and_transform] and the aggregator [write_analytics]), with the
    properties of the pipeline proved about it.

    Conventions of the embedding:
    - a data frame is the list of its rows, a row is a record with one
      field per column, and a nullable cell is an [option]; the dtype Null
      of a column that was built from [None] cells only is told from the
      cells where the code depends on it;
    - a Python [str] is a [string] whose characters are read as the code
      points U+0000..U+00FF;
    - a [Float64] cell is an IEEE 754 binary64 value ([spec_float] at
      precision 53 and maximal exponent 1024);
    - a Python exception is the [Err] case of [result]; a function that
      returns a frame and not a [result] gives the frame that the code
      returns when it returns. *)

From Stdlib Require Import ZArith NArith List String Ascii Bool Lia.
From Stdlib Require Import SpecFloat DecimalString.
From stdpp Require Import gmap sorting.
Import ListNotations.

Local Open Scope Z_scope.

(* ===================================================================== *)
(** * Text *)
(* ===================================================================== *)

Module Text.

(** [str.isspace] of Python on one character: the characters that
    [str.strip()] removes. *)
Definition py_isspace (c : ascii) : bool :=
  let n := N_of_ascii c in
  ((9 <=? n) && (n <=? 13) || (28 <=? n) && (n <=? 32)
   || (n =? 133) || (n =? 160))%N.

(** The Unicode property White_Space on one character: the characters
    that [str.strip_chars()] of Polars removes (Rust's [trim]). *)
Definition is_whitespace (c : ascii) : bool :=
  let n := N_of_ascii c in
  ((9 <=? n) && (n <=? 13) || (n =? 32) || (n =? 133) || (n =? 160))%N.

(** Lower-casing of one character: A-Z, and the capital letters
    U+00C0..U+00DE but the multiplication sign U+00D7. *)
Definition lower_char (c : ascii) : ascii :=
  let n := N_of_ascii c in
  if ((65 <=? n) && (n <=? 90)
      || (192 <=? n) && (n <=? 222) && negb (n =? 215))%N
  then ascii_of_N (n + 32) else c.

Fixpoint lstrip (sp : ascii -> bool) (s : string) : string :=
  match s with
  | EmptyString => EmptyString
  | String c s' => if sp c then lstrip sp s' else s
  end.

Fixpoint rstrip (sp : ascii -> bool) (s : string) : string :=
  match s with
  | EmptyString => EmptyString
  | String c s' =>
      match rstrip sp s' with
      | EmptyString => if sp c then EmptyString else String c EmptyString
      | t => String c t
      end
  end.

Definition strip_with (sp : ascii -> bool) (s : string) : string :=
  rstrip sp (lstrip sp s).

(** [x.strip()] *)
Definition py_strip : string -> string := strip_with py_isspace.

(** [.str.strip_chars()] *)
Definition strip_chars : string -> string := strip_with is_whitespace.

(** [.str.to_lowercase()] *)
Fixpoint to_lowercase (s : string) : string :=
  match s with
  | EmptyString => EmptyString
  | String c s' => String (lower_char c) (to_lowercase s')
  end.

(** A string that neither starts nor ends with a character of [sp]. *)
Definition stripped (sp : ascii -> bool) (s : string) : Prop :=
  lstrip sp s = s /\ rstrip sp s = s.

End Text.

(* ===================================================================== *)
(** * Float64 *)
(* ===================================================================== *)

Module F64.

Definition t : Type := spec_float.

Definition prec : Z := 53.
Definition emax : Z := 1024.

Definition mul : t -> t -> t := SFmul prec emax.
Definition add : t -> t -> t := SFadd prec emax.
Definition eqb : t -> t -> bool := SFeqb.

(** The cast of an [Int64] to [Float64], rounding to nearest even. *)
Definition of_Z (z : Z) : t := binary_normalize prec emax z 0 false.

Definition zero : t := S754_zero false.

(** The integer that a double holds, for a double that holds one. *)
Definition to_Z (x : t) : Z :=
  match x with
  | S754_finite s m e => (if s then -1 else 1) * Z.shiftl (Z.pos m) e
  | _ => 0
  end.

Definition is_nan (x : t) : bool :=
  match x with S754_nan => true | _ => false end.

(** The total order in which DuckDB sorts doubles: the IEEE order, with
    NaN equal to itself and above every other value. *)
Definition leb (x y : t) : bool :=
  match x, y with
  | _, S754_nan => true
  | S754_nan, _ => false
  | _, _ => SFleb x y
  end.

End F64.

(* ===================================================================== *)
(** * Calendar dates *)
(* ===================================================================== *)

(** A date is its proleptic Gregorian ordinal ([toordinal] of
    [datetime.date]): day 1 is 0001-01-01, and a [pl.Date] before the year
    1 has an ordinal below 1. [utcnow().date()] lies far above the first
    month of year 1, so [today - timedelta(days=k)] with [k < 30] is the
    subtraction of ordinals. *)
Module Date.

Definition t : Type := Z.

Definition is_leap (year : Z) : bool :=
  (year mod 4 =? 0) && (negb (year mod 100 =? 0) || (year mod 400 =? 0)).

Definition days_before_year (year : Z) : Z :=
  let y := year - 1 in y * 365 + y / 4 - y / 100 + y / 400.

Definition days_in_month (year month : Z) : Z :=
  if (month =? 2) && is_leap year then 29
  else nth (Z.to_nat month) [0; 31; 28; 31; 30; 31; 30; 31; 31; 30; 31; 30; 31] 0.

Definition days_before_month (year month : Z) : Z :=
  nth (Z.to_nat month) [0; 0; 31; 59; 90; 120; 151; 181; 212; 243; 273; 304; 334] 0
  + (if (2 <? month) && is_leap year then 1 else 0).

Definition ymd2ord (year month day : Z) : t :=
  days_before_year year + days_before_month year month + day.

Definition DI400Y : Z := days_before_year 401.
Definition DI100Y : Z := days_before_year 101.
Definition DI4Y : Z := days_before_year 5.

Definition ord2ymd (n : t) : Z * Z * Z :=
  let n := n - 1 in
  let n400 := n / DI400Y in
  let n := n mod DI400Y in
  let year := n400 * 400 + 1 in
  let n100 := n / DI100Y in
  let n := n mod DI100Y in
  let n4 := n / DI4Y in
  let n := n mod DI4Y in
  let n1 := n / 365 in
  let n := n mod 365 in
  let year := year + n100 * 100 + n4 * 4 + n1 in
  if (n1 =? 4) || (n100 =? 4) then (year - 1, 12, 31)
  else
    let leapyear := (n1 =? 3) && (negb (n4 =? 24) || (n100 =? 3)) in
    let month := Z.shiftr (n + 50) 5 in
    let preceding :=
      nth (Z.to_nat month) [0; 0; 31; 59; 90; 120; 151; 181; 212; 243; 273; 304; 334] 0
      + (if (2 <? month) && leapyear then 1 else 0) in
    if n <? preceding
    then
      let month := month - 1 in
      let preceding :=
        preceding
        - (nth (Z.to_nat month) [0; 31; 28; 31; 30; 31; 30; 31; 31; 30; 31; 30; 31] 0
           + (if (month =? 2) && leapyear then 1 else 0)) in
      (year, month, n - preceding + 1)
    else (year, month, n - preceding + 1).

Definition digit (n : Z) : ascii := ascii_of_N (48 + Z.to_N (n mod 10)).

(** [n] in decimal on exactly [w] digits, zero-padded (["%0wd"]). *)
Fixpoint pad_dec (w : nat) (n : Z) : string :=
  match w with
  | O => EmptyString
  | S w' => (pad_dec w' (n / 10) ++ String (digit n) EmptyString)%string
  end.

(** [date.isoformat()]: ["%04d-%02d-%02d"]. *)
Definition isoformat (d : t) : string :=
  let '(y, m, dd) := ord2ymd d in
  (pad_dec 4 y ++ "-" ++ pad_dec 2 m ++ "-" ++ pad_dec 2 dd)%string.

Definition digit_val (c : ascii) : option Z :=
  let n := N_of_ascii c in
  if ((48 <=? n) && (n <=? 57))%N then Some (Z.of_N n - 48) else None.

(** The number that the digits at the head of [cs] write after [acc],
    at most [w] of them, and what follows these digits. *)
Fixpoint scan_digits (w : nat) (acc : Z) (cs : list ascii) : Z * list ascii :=
  match w, cs with
  | S w', c :: cs' =>
      match digit_val c with
      | Some v => scan_digits w' (acc * 10 + v) cs'
      | None => (acc, cs)
      end
  | _, _ => (acc, cs)
  end.

(** A numeric field: one to [w] digits. *)
Definition scan_number (w : nat) (cs : list ascii) : option (Z * list ascii) :=
  match cs with
  | c :: cs' =>
      match digit_val c with
      | Some v => Some (scan_digits (Nat.pred w) v cs')
      | None => None
      end
  | [] => None
  end.

(** The white space before a numeric field is skipped. *)
Fixpoint trim_start (cs : list ascii) : list ascii :=
  match cs with
  | c :: cs' => if Text.is_whitespace c then trim_start cs' else cs
  | [] => []
  end.

(** [%Y]: at most four digits, or a sign and any number of digits. *)
Definition scan_year (cs : list ascii) : option (Z * list ascii) :=
  match cs with
  | c :: cs' =>
      if Ascii.eqb c "-" then
        '(y, rest) ← scan_number (length cs') cs'; Some (- y, rest)
      else if Ascii.eqb c "+" then scan_number (length cs') cs'
      else scan_number 4 cs
  | [] => None
  end.

(** A character of the format that stands for itself. *)
Definition literal (c : ascii) (cs : list ascii) : option (list ascii) :=
  match cs with
  | c' :: cs' => if Ascii.eqb c' c then Some cs' else None
  | [] => None
  end.

(** The years of the dates that the parser builds. *)
Definition min_year : Z := -262143.
Definition max_year : Z := 262142.

(** [.str.strptime(pl.Date, "%Y-%m-%d", strict=False)] on one string, as
    the parser of the library (chrono's [NaiveDate::parse_from_str]) reads
    it: the year, a dash, the month of one or two digits, a dash, the day
    of one or two digits, and nothing after it, with white space allowed
    before each of the three numbers; the three numbers name a day that
    exists. Every other string gives null. *)
Definition strptime (s : string) : option t :=
  '(y, cs) ← scan_year (trim_start (list_ascii_of_string s));
  cs ← literal "-" cs;
  '(m, cs) ← scan_number 2 (trim_start cs);
  cs ← literal "-" cs;
  '(dd, cs) ← scan_number 2 (trim_start cs);
  match cs with
  | [] =>
      if (min_year <=? y) && (y <=? max_year)
         && (1 <=? m) && (m <=? 12) && (1 <=? dd) && (dd <=? days_in_month y m)
      then Some (ymd2ord y m dd) else None
  | _ :: _ => None
  end.

End Date.

(* ===================================================================== *)
(** * Outcomes of Python code *)
(* ===================================================================== *)

Inductive py_error : Type :=
  | KeyError     (* [d[k]] on a dict without the key [k] *)
  | TypeError    (* iteration over [None], or [None < int] in [sorted] *)
  | PolarsError. (* an exception of [polars.exceptions]: an operation on a
                    column whose dtype it does not take, a strict cast of a
                    value that the target dtype does not hold, a column
                    that the frame does not have *)

Inductive result (A : Type) : Type :=
  | Ok (a : A)
  | Err (e : py_error).
Arguments Ok {A} a.
Arguments Err {A} e.

Global Instance result_ret : MRet result := λ A (a : A), Ok a.
Global Instance result_fmap : FMap result :=
  λ A B (f : A → B) (c : result A),
    match c with Ok a => Ok (f a) | Err e => Err e end.
Global Instance result_bind : MBind result :=
  λ A B (f : A → result B) (c : result A),
    match c with Ok a => f a | Err e => Err e end.

(* ===================================================================== *)
(** * The JSON payloads *)
(* ===================================================================== *)

(** What a JSON object holds under one key: nothing (the key is absent),
    [null], or a value. *)
Inductive field (A : Type) : Type :=
  | Absent
  | Null
  | Val (a : A).
Arguments Absent {A}.
Arguments Null {A}.
Arguments Val {A} a.

(** [d.get(k)] *)
Definition get {A} (f : field A) : option A :=
  match f with Val a => Some a | _ => None end.

(** [d.get(k, default)]: the default stands in for an absent key only. *)
Definition get_default {A} (f : field A) (d : A) : option A :=
  match f with Absent => Some d | Null => None | Val a => Some a end.

(** [d[k]] *)
Definition item {A} (f : field A) : result (option A) :=
  match f with Absent => Err KeyError | Null => Ok None | Val a => Ok (Some a) end.

Definition is_absent {A} (f : field A) : bool :=
  match f with Absent => true | _ => false end.

(** [for x in v]: [None] is not iterable. *)
Definition py_iter {A} (v : option (list A)) : result (list A) :=
  match v with Some l => Ok l | None => Err TypeError end.

(** [s or ""] *)
Definition or_empty_str (v : option string) : string := default EmptyString v.

(** [l or []] *)
Definition or_empty_list {A} (v : option (list A)) : list A := default [] v.

Record Product : Type := mkProduct {
  p_id : field Z;
  p_title : field string;
  p_price : field F64.t;
  p_quantity : field Z;
  p_total : field F64.t
}.

Record Cart : Type := mkCart {
  c_id : field Z;
  c_userId : field Z;
  c_total : field F64.t;
  c_discountedTotal : field F64.t;
  c_totalProducts : field Z;
  c_totalQuantity : field Z;
  c_products : field (list Product)
}.

Record Address : Type := mkAddress {
  a_city : field string
}.

Record User : Type := mkUser {
  u_id : field Z;
  u_firstName : field string;
  u_lastName : field string;
  u_email : field string;
  u_address : field Address;
  u_age : field Z;
  u_gender : field string
}.

(** The object returned by the carts endpoint, and by the users endpoint. *)
Record CartsPayload : Type := mkCartsPayload { cp_carts : field (list Cart) }.
Record UsersPayload : Type := mkUsersPayload { up_users : field (list User) }.

(** The empty dict [{}] as an address. *)
Definition empty_address : Address := {| a_city := Absent |}.

(** [bool(addr)] and [bool(user)]: a dict is true when it has a key. *)
Definition address_truthy (a : Address) : bool := negb (is_absent (a_city a)).

Definition user_truthy (u : User) : bool :=
  negb (is_absent (u_id u) && is_absent (u_firstName u) && is_absent (u_lastName u)
        && is_absent (u_email u) && is_absent (u_address u) && is_absent (u_age u)
        && is_absent (u_gender u)).

(** [user.get("address") or {}] *)
Definition or_empty_address (v : option Address) : Address :=
  match v with
  | Some a => if address_truthy a then a else empty_address
  | None => empty_address
  end.

(* ===================================================================== *)
(** * Data frames *)
(* ===================================================================== *)

(** The [age] column is [Int64] when it leaves the flattener and [Utf8]
    when it leaves the normalizer. *)
Inductive age_cell : Type :=
  | AgeInt (a : option Z)
  | AgeStr (a : option string).

(** One row of the frame. [order_date] is written by the flattener and
    [total_amount] by the normalizer: a frame that does not have the column
    yet has null there. *)
Record Row : Type := mkRow {
  cart_id : option Z;
  user_id : option Z;
  cart_total : option F64.t;
  cart_discounted_total : option F64.t;
  cart_total_products : option Z;
  cart_total_quantity : option Z;
  product_id : option Z;
  product_title : option string;
  product_price : option F64.t;
  product_quantity : option Z;
  product_total : option F64.t;
  first_name : option string;
  last_name : option string;
  customer_name : option string;
  email : option string;
  city : option string;
  age : age_cell;
  gender : option string;
  order_date : option string;
  total_amount : option F64.t
}.

Definition DataFrame : Type := list Row.

(** [.fill_null(v)] *)
Definition fill_null {A} (v : A) (c : option A) : option A :=
  match c with Some a => Some a | None => Some v end.

(** [.is_null()], [==] against a literal, [|], [*] and
    [when/then/otherwise] of Polars on one cell; a comparison with null is
    null, [|] is the three-valued or, and [when] takes null for false. *)
Definition is_null {A} (c : option A) : option bool :=
  Some (match c with None => true | Some _ => false end).

Definition eq_lit (c : option F64.t) (v : F64.t) : option bool :=
  match c with Some x => Some (F64.eqb x v) | None => None end.

Definition or3 (a b : option bool) : option bool :=
  match a, b with
  | Some true, _ | _, Some true => Some true
  | Some false, Some false => Some false
  | _, _ => None
  end.

Definition when_then_otherwise {A} (c : option bool) (t e : A) : A :=
  match c with Some true => t | _ => e end.

Definition mul_cells (x : option F64.t) (n : option Z) : option F64.t :=
  match x, n with
  | Some a, Some b => Some (F64.mul a (F64.of_Z b))
  | _, _ => None
  end.

(** The dtype of a column that [pl.DataFrame(rows)] builds from Python
    values is inferred from its cells, and it is Null when every cell is
    [None]. (Polars infers it from the first rows of a long frame; the
    embedding reads the whole column.) *)
Definition null_dtype {A} (col : list (option A)) : bool :=
  forallb (λ c, match c with None => true | Some _ => false end) col.

(** An integer cell that [Int64] holds: [.cast(pl.Int64)] is strict, and
    fails on every other integer. *)
Definition fits_int64 (c : option Z) : bool :=
  match c with
  | Some z => (- 2 ^ 63 <=? z) && (z <? 2 ^ 63)
  | None => true
  end.

(** [.cast(pl.Utf8, strict=False)] on the [age] column. *)
Definition cast_utf8 (a : age_cell) : option string :=
  match a with
  | AgeInt (Some z) => Some (NilZero.string_of_int (Z.to_int z))
  | AgeInt None => None
  | AgeStr s => s
  end.

(* ===================================================================== *)
(** * The flattener: [extract_from_api] of scripts/extract.py *)
(* ===================================================================== *)

(** [{u["id"]: u for u in users}], the entries added from left to right
    to [m]: a later user replaces an earlier one with the same id. *)
Fixpoint build_user_map (m : gmap (option Z) User) (users : list User)
  : result (gmap (option Z) User) :=
  match users with
  | [] => Ok m
  | u :: us => k ← item (u_id u); build_user_map (<[k := u]> m) us
  end.

(** The row of one product of one cart, before the frame is built. *)
Definition product_row (user_map : gmap (option Z) User) (cart : Cart) (p : Product) : Row :=
  let uid := get (c_userId cart) in
  let matched :=
    match user_map !! uid with
    | Some user => if user_truthy user then Some user else None
    | None => None
    end in
  match matched with
  | Some user =>
      let first := or_empty_str (get (u_firstName user)) in
      let last := or_empty_str (get (u_lastName user)) in
      let addr := or_empty_address (get (u_address user)) in
      {| cart_id := get (c_id cart);
         user_id := uid;
         cart_total := get (c_total cart);
         cart_discounted_total := get (c_discountedTotal cart);
         cart_total_products := get (c_totalProducts cart);
         cart_total_quantity := get (c_totalQuantity cart);
         product_id := get (p_id p);
         product_title := get (p_title p);
         product_price := get (p_price p);
         product_quantity := get (p_quantity p);
         product_total := get (p_total p);
         first_name := Some first;
         last_name := Some last;
         customer_name := Some (Text.py_strip (first ++ " " ++ last)%string);
         email := get (u_email user);
         city := get (a_city addr);
         age := AgeInt (get (u_age user));
         gender := get (u_gender user);
         order_date := None;
         total_amount := None |}
  | None =>
      {| cart_id := get (c_id cart);
         user_id := uid;
         cart_total := get (c_total cart);
         cart_discounted_total := get (c_discountedTotal cart);
         cart_total_products := get (c_totalProducts cart);
         cart_total_quantity := get (c_totalQuantity cart);
         product_id := get (p_id p);
         product_title := get (p_title p);
         product_price := get (p_price p);
         product_quantity := get (p_quantity p);
         product_total := get (p_total p);
         first_name := None;
         last_name := None;
         customer_name := None;
         email := None;
         city := None;
         age := AgeInt None;
         gender := None;
         order_date := None;
         total_amount := None |}
  end.

(** The rows of one cart: one per entry of [cart.get("products", []) or []]. *)
Definition cart_rows (user_map : gmap (option Z) User) (cart : Cart) : list Row :=
  product_row user_map cart <$> or_empty_list (get_default (c_products cart) []).

(** The two nested loops. *)
Definition flatten (user_map : gmap (option Z) User) (carts : list Cart) : list Row :=
  carts ≫= cart_rows user_map.

(** [df.select("cart_id").unique().to_series().to_list()] *)
Definition unique_carts (rows : list Row) : list (option Z) :=
  remove_dups (cart_id <$> rows).

Definition int_of_cell (c : option Z) : result Z :=
  match c with Some z => Ok z | None => Err TypeError end.

(** [sorted(l)] on cart identifiers: a list of at most one element needs no
    comparison; in a longer one [None] cannot be compared with a number. *)
Definition py_sorted (l : list (option Z)) : result (list (option Z)) :=
  match l with
  | [] | [_] => Ok l
  | _ => ids ← mapM int_of_cell l; Ok (Some <$> merge_sort Z.le ids)
  end.

(** The loop [for i, cid in enumerate(...)], entered at index [i] with
    the map [m]. *)
Fixpoint build_date_map (today : Date.t) (i : nat) (ids : list (option Z))
    (m : gmap (option Z) string) : gmap (option Z) string :=
  match ids with
  | [] => m
  | cid :: rest =>
      let days_back := Z.of_nat i mod 30 in
      build_date_map today (S i) rest (<[cid := Date.isoformat (today - days_back)]> m)
  end.

(** [.map_elements(lambda x: date_map.get(x))]: the function is not
    called on a null cell, which stays null. *)
Definition lookup_date (date_map : gmap (option Z) string) (c : option Z) : option string :=
  match c with
  | Some x => date_map !! Some x
  | None => None
  end.

(** The first [with_columns] of the flattener on one row: the order date
    and the cleaned product title. *)
Definition with_order_date (date_map : gmap (option Z) string) (r : Row) : Row :=
  {| cart_id := cart_id r;
     user_id := user_id r;
     cart_total := cart_total r;
     cart_discounted_total := cart_discounted_total r;
     cart_total_products := cart_total_products r;
     cart_total_quantity := cart_total_quantity r;
     product_id := product_id r;
     product_title := (λ s, Text.strip_chars (Text.to_lowercase s)) <$> product_title r;
     product_price := product_price r;
     product_quantity := product_quantity r;
     product_total := product_total r;
     first_name := first_name r;
     last_name := last_name r;
     customer_name := customer_name r;
     email := email r;
     city := city r;
     age := age r;
     gender := gender r;
     order_date := lookup_date date_map (cart_id r);
     total_amount := total_amount r |}.

(** The first [with_columns] on the frame. [.str.to_lowercase()] is an
    operation on strings: when no product has a title, [product_title] has
    the dtype Null and the expression raises. *)
Definition add_order_date (date_map : gmap (option Z) string) (df : DataFrame)
  : result DataFrame :=
  if null_dtype (product_title <$> df) then Err PolarsError
  else Ok (with_order_date date_map <$> df).

(** The second [with_columns], the casts: they leave the typed cells of
    this embedding as they are, and fail on an identifier or a quantity
    that [Int64] does not hold. *)
Definition normalize_types (df : DataFrame) : result DataFrame :=
  if forallb (λ r, fits_int64 (cart_id r) && fits_int64 (user_id r)
                   && fits_int64 (product_id r) && fits_int64 (product_quantity r)) df
  then Ok df else Err PolarsError.

Definition extract_from_api (today : Date.t)
    (carts_payload : CartsPayload) (users_payload : UsersPayload) : result DataFrame :=
  let carts := get_default (cp_carts carts_payload) [] in
  let users := get_default (up_users users_payload) [] in
  users ← py_iter users;
  user_map ← build_user_map ∅ users;
  carts ← py_iter carts;
  let rows := flatten user_map carts in
  match rows with
  | [] => Ok []
  | _ =>
      ids ← py_sorted (unique_carts rows);
      let date_map := build_date_map today 0 ids ∅ in
      df ← add_order_date date_map rows;
      normalize_types df
  end.

(* ===================================================================== *)
(** * The normalizer: [clean_and_transform] of scripts/transform.py *)
(* ===================================================================== *)

(** The first [with_columns] on one row: the casts (which leave the typed
    cells as they are), the trimmed texts and the imputed customer fields.
    The customer columns are columns of strings here; on a column of dtype
    Null [map_elements] raises, see [clean_and_transform_extracted]. *)
Definition clean_columns (r : Row) : Row :=
  {| cart_id := cart_id r;
     user_id := user_id r;
     cart_total := cart_total r;
     cart_discounted_total := cart_discounted_total r;
     cart_total_products := cart_total_products r;
     cart_total_quantity := cart_total_quantity r;
     product_id := product_id r;
     product_title := Text.py_strip <$> product_title r;
     product_price := product_price r;
     product_quantity := product_quantity r;
     product_total := product_total r;
     first_name := fill_null "No Data"%string (first_name r);
     last_name := fill_null "No Data"%string (last_name r);
     customer_name := fill_null "No Data"%string (Text.py_strip <$> customer_name r);
     email := fill_null "No Data"%string (email r);
     city := fill_null "No Data"%string (city r);
     age := AgeStr (fill_null "No Data"%string (cast_utf8 (age r)));
     gender := fill_null "No Data"%string (gender r);
     order_date := order_date r;
     total_amount := total_amount r |}.

(** The second [with_columns]: [total_amount]. *)
Definition compute_total_amount (r : Row) : Row :=
  {| cart_id := cart_id r;
     user_id := user_id r;
     cart_total := cart_total r;
     cart_discounted_total := cart_discounted_total r;
     cart_total_products := cart_total_products r;
     cart_total_quantity := cart_total_quantity r;
     product_id := product_id r;
     product_title := product_title r;
     product_price := product_price r;
     product_quantity := product_quantity r;
     product_total := product_total r;
     first_name := first_name r;
     last_name := last_name r;
     customer_name := customer_name r;
     email := email r;
     city := city r;
     age := age r;
     gender := gender r;
     order_date := order_date r;
     total_amount :=
       when_then_otherwise
         (or3 (is_null (product_total r)) (eq_lit (product_total r) (F64.of_Z 0)))
         (mul_cells (product_price r) (product_quantity r))
         (product_total r) |}.

(** The third [with_columns]: the product title, lower-cased and trimmed. *)
Definition standardize_title (r : Row) : Row :=
  {| cart_id := cart_id r;
     user_id := user_id r;
     cart_total := cart_total r;
     cart_discounted_total := cart_discounted_total r;
     cart_total_products := cart_total_products r;
     cart_total_quantity := cart_total_quantity r;
     product_id := product_id r;
     product_title := (λ s, Text.strip_chars (Text.to_lowercase s)) <$> product_title r;
     product_price := product_price r;
     product_quantity := product_quantity r;
     product_total := product_total r;
     first_name := first_name r;
     last_name := last_name r;
     customer_name := customer_name r;
     email := email r;
     city := city r;
     age := age r;
     gender := gender r;
     order_date := order_date r;
     total_amount := total_amount r |}.

(** The frame that [clean_and_transform] returns, for a frame whose
    columns have the dtypes of this embedding: strings in the customer
    columns, whether or not a cell is null. *)
Definition clean_and_transform (df : DataFrame) : DataFrame :=
  let df := clean_columns <$> df in
  let df := compute_total_amount <$> df in
  let df := standardize_title <$> df in
  filter (λ r, is_Some (product_id r)) df.

(** [clean_and_transform] on the frame that [extract_from_api] returns.
    The flattener does not cast the customer columns: they keep the dtype
    that [pl.DataFrame(rows)] inferred, which is Null when no row has a
    user, and the frame without rows has no column at all.
    [map_elements] without [return_dtype] raises on the column
    [customer_name] of dtype Null, and [pl.col] on a column that the frame
    does not have. *)
Definition clean_and_transform_extracted (df : DataFrame) : result DataFrame :=
  if null_dtype (customer_name <$> df) then Err PolarsError
  else Ok (clean_and_transform df).

(* ===================================================================== *)
(** * The aggregator: [write_analytics] of scripts/transform.py *)
(* ===================================================================== *)

(** The relation [sales] that DuckDB reads, restricted to the columns that
    the three queries name. *)
Module Sales.
Record t : Type := mk {
    product_title : option string;
    total_amount : option F64.t;
    user_id : option Z;
    customer_name : option string;
    cart_id : option Z;
    order_date : option Date.t
  }.
End Sales.

(** [.str.strptime(pl.Date, "%Y-%m-%d", strict=False)] on the column: a
    string that does not parse becomes null. *)
Definition parse_order_date (c : option string) : option Date.t :=
  c ≫= Date.strptime.

(** An [Int64] column on its way through [to_pandas()] into DuckDB. A
    column without a null is an int64 column of pandas. A column with a
    null is a float64 column: each number is rounded to the nearest double,
    and the null is NaN, which DuckDB reads as NULL. *)
Definition has_null {A} (col : list (option A)) : bool :=
  existsb (λ c, match c with None => true | Some _ => false end) col.

Definition pandas_int64 (nullable : bool) (c : option Z) : option Z :=
  if nullable then (λ z, F64.to_Z (F64.of_Z z)) <$> c else c.

(** A [Float64] column on its way through [to_pandas()] into DuckDB: null
    becomes NaN in the pandas column, and DuckDB reads NaN there as NULL. *)
Definition nan_to_null (c : option F64.t) : option F64.t :=
  match c with
  | Some x => if F64.is_nan x then None else Some x
  | None => None
  end.

(** [con.register("sales", df.to_pandas())] after the date is parsed,
    with the parser of the library as the parameter [strptime]. *)
Definition register_sales_with (strptime : string → option Date.t) (df : DataFrame)
  : list Sales.t :=
  (λ r, {| Sales.product_title := product_title r;
           Sales.total_amount := nan_to_null (total_amount r);
           Sales.user_id := pandas_int64 (has_null (user_id <$> df)) (user_id r);
           Sales.customer_name := customer_name r;
           Sales.cart_id := pandas_int64 (has_null (cart_id <$> df)) (cart_id r);
           Sales.order_date := order_date r ≫= strptime |}) <$> df.

Definition register_sales : DataFrame → list Sales.t :=
  register_sales_with Date.strptime.

(** [GROUP BY] as one pass over the rows: each group key has one
    accumulator, created when the key is first seen; NULL keys are equal to
    each other. *)
Section Aggregate.
Context {R K A : Type} `{EqDecision K}.
Variable key : R → K.
Variable init : A.
Variable step : A → R → A.

Fixpoint update_group (r : R) (groups : list (K * A)) : list (K * A) :=
    match groups with
    | [] => [(key r, step init r)]
    | (k, a) :: gs =>
        if decide (key r = k) then (k, step a r) :: gs
        else (k, a) :: update_group r gs
    end.

Definition group_by (rows : list R) : list (K * A) :=
    foldl (λ gs r, update_group r gs) [] rows.
End Aggregate.

(** One step of [SUM]: a NULL is skipped, and the sum of no value is NULL. *)
Definition sum_step (acc x : option F64.t) : option F64.t :=
  match x, acc with
  | None, _ => acc
  | Some v, None => Some v
  | Some v, Some a => Some (F64.add a v)
  end.

(** One step of [COUNT(DISTINCT ...)]: a NULL is not counted. *)
Definition distinct_step (seen : gset Z) (x : option Z) : gset Z :=
  match x with
  | Some v => {[v]} ∪ seen
  | None => seen
  end.

(** [SUM] of a column, written out: the non-NULL cells added from left to
    right. *)
Definition sql_sum (cells : list (option F64.t)) : option F64.t :=
  match omap id cells with
  | [] => None
  | x :: xs => Some (foldl F64.add x xs)
  end.

(** [ORDER BY ... DESC] on a double column and [ORDER BY ...] on a date
    column: NULLs come last in both. *)
Definition desc_nulls_last (a b : option F64.t) : bool :=
  match a, b with
  | _, None => true
  | None, Some _ => false
  | Some x, Some y => F64.leb y x
  end.

Definition asc_nulls_last (a b : option Date.t) : bool :=
  match a, b with
  | _, None => true
  | None, Some _ => false
  | Some x, Some y => x <=? y
  end.

Module RevenueByProduct.
Record t : Type := mk {
    product_title : option string;
    total_revenue : option F64.t
  }.
Definition before (a b : t) : Prop :=
    desc_nulls_last (total_revenue a) (total_revenue b) = true.
End RevenueByProduct.

Module CustomerSummary.
Record t : Type := mk {
    customer_id : option Z;
    customer_name : string;
    total_orders : nat;
    total_spent : option F64.t
  }.
Definition before (a b : t) : Prop :=
    desc_nulls_last (total_spent a) (total_spent b) = true.
End CustomerSummary.

Module DailySales.
Record t : Type := mk {
    order_date : option Date.t;
    daily_sales : option F64.t
  }.
Definition before (a b : t) : Prop :=
    asc_nulls_last (order_date a) (order_date b) = true.
End DailySales.

Global Instance revenue_before_dec a b : Decision (RevenueByProduct.before a b) :=
  decide (desc_nulls_last _ _ = true).
Global Instance customer_before_dec a b : Decision (CustomerSummary.before a b) :=
  decide (desc_nulls_last _ _ = true).
Global Instance daily_before_dec a b : Decision (DailySales.before a b) :=
  decide (asc_nulls_last _ _ = true).

(** [SELECT product_title, SUM(total_amount) AS total_revenue FROM sales
    GROUP BY product_title ORDER BY total_revenue DESC] *)
Definition revenue_by_product (sales : list Sales.t) : list RevenueByProduct.t :=
  merge_sort RevenueByProduct.before
    ((λ g, RevenueByProduct.mk g.1 g.2) <$>
     group_by Sales.product_title None
       (λ acc r, sum_step acc (Sales.total_amount r)) sales).

(** [CASE WHEN customer_name IS NULL OR customer_name = '' THEN 'No Data'
    ELSE customer_name END] *)
Definition display_name (name : option string) : string :=
  match name with
  | None => "No Data"
  | Some s => if String.eqb s "" then "No Data" else s
  end.

(** The groups of the customer summary. In [GROUP BY customer_id,
    customer_name] DuckDB looks a name up among the columns of [sales]
    first and among the aliases of the select list only when [sales] has no
    such column: [customer_id] is the alias of [user_id], and
    [customer_name] is the column of [sales], not the [CASE] expression that
    the select list gives the same name. *)
Definition customer_groups (sales : list Sales.t)
  : list ((option Z * option string) * (gset Z * option F64.t)) :=
  group_by (λ r, (Sales.user_id r, Sales.customer_name r)) (∅, None)
    (λ acc r, (distinct_step acc.1 (Sales.cart_id r),
               sum_step acc.2 (Sales.total_amount r))) sales.

(** [SELECT user_id AS customer_id, CASE ... END AS customer_name,
    COUNT(DISTINCT cart_id) AS total_orders, SUM(total_amount) AS
    total_spent FROM sales GROUP BY customer_id, customer_name
    ORDER BY total_spent DESC] *)
Definition customer_summary (sales : list Sales.t) : list CustomerSummary.t :=
  merge_sort CustomerSummary.before
    ((λ g, CustomerSummary.mk g.1.1 (display_name g.1.2) (size g.2.1) g.2.2) <$>
     customer_groups sales).

(** [SELECT order_date, SUM(total_amount) AS daily_sales FROM sales
    GROUP BY order_date ORDER BY order_date] *)
Definition daily_sales (sales : list Sales.t) : list DailySales.t :=
  merge_sort DailySales.before
    ((λ g, DailySales.mk g.1 g.2) <$>
     group_by Sales.order_date None
       (λ acc r, sum_step acc (Sales.total_amount r)) sales).

(** The three tables that [write_analytics] writes. *)
Record Analytics : Type := mkAnalytics {
  revenue_by_product_csv : list RevenueByProduct.t;
  customer_summary_csv : list CustomerSummary.t;
  daily_sales_csv : list DailySales.t
}.

Definition write_analytics_with (strptime : string → option Date.t) (df : DataFrame)
  : Analytics :=
  let sales := register_sales_with strptime df in
  {| revenue_by_product_csv := revenue_by_product sales;
     customer_summary_csv := customer_summary sales;
     daily_sales_csv := daily_sales sales |}.

Definition write_analytics : DataFrame → Analytics :=
  write_analytics_with Date.strptime.

(* ===================================================================== *)
(** * Vocabulary of the properties *)
(* ===================================================================== *)

(** The three [with_columns] of the normalizer on one row. *)
Definition normalize_row (r : Row) : Row :=
  standardize_title (compute_total_amount (clean_columns r)).

(** A cell of [product_total] that is null or exactly zero. *)
Definition null_or_zero (c : option F64.t) : bool :=
  match c with
  | None => true
  | Some x => F64.eqb x (F64.of_Z 0)
  end.

(** The lookup table that the flattener builds from the users payload. *)
Definition user_map_of (users_payload : UsersPayload) : result (gmap (option Z) User) :=
  users ← py_iter (get_default (up_users users_payload) []);
  build_user_map ∅ users.

(** The accumulator that a list of groups holds for the key [k]. *)
Fixpoint find_group {K A : Type} `{EqDecision K} (k : K) (groups : list (K * A))
  : option A :=
  match groups with
  | [] => None
  | (k', a) :: gs => if decide (k = k') then Some a else find_group k gs
  end.

(** The users that the flattener iterates over. *)
Definition users_of (users_payload : UsersPayload) : list User :=
  or_empty_list (get_default (up_users users_payload) []).

(* ===================================================================== *)
(** * Sample data *)
(* ===================================================================== *)

(** A frame row as it leaves the flattener, with nulls in the columns that
    the samples do not use. *)
Definition sample_row (cid uid pid : option Z) (name : option string)
    (price : option F64.t) (quantity : option Z) (total : option F64.t)
    (date : option string) : Row :=
  {| cart_id := cid;
     user_id := uid;
     cart_total := None;
     cart_discounted_total := None;
     cart_total_products := None;
     cart_total_quantity := None;
     product_id := pid;
     product_title := None;
     product_price := price;
     product_quantity := quantity;
     product_total := total;
     first_name := None;
     last_name := None;
     customer_name := name;
     email := None;
     city := None;
     age := AgeInt None;
     gender := None;
     order_date := date;
     total_amount := None |}.

(** A row whose price is missing and whose line total is missing too. *)
Definition row_without_price : Row :=
  sample_row (Some 1) (Some 10) (Some 100) (Some "Jo Doe"%string)
    None (Some 2) None (Some "2026-11-03"%string).

(** A row whose customer name is three spaces. *)
Definition row_with_blank_name : Row :=
  sample_row (Some 1) (Some 10) (Some 100) (Some "   "%string)
    (Some (F64.of_Z 20)) (Some 2) (Some (F64.of_Z 40)) (Some "2026-11-03"%string).

(** The reference date of the samples, 2026-11-03. *)
Definition sample_today : Date.t := Date.ymd2ord 2026 11 3.

Definition sample_product : Product :=
  {| p_id := Val 100;
     p_title := Val " Shirt "%string;
     p_price := Val (F64.of_Z 20);
     p_quantity := Val 2;
     p_total := Val (F64.of_Z 0) |}.

(** A cart of one product, with its identifier and the one of its user. *)
Definition sample_cart (id uid : Z) : Cart :=
  {| c_id := Val id;
     c_userId := Val uid;
     c_total := Absent;
     c_discountedTotal := Absent;
     c_totalProducts := Absent;
     c_totalQuantity := Absent;
     c_products := Val [sample_product] |}.

(** The same cart without the key ["id"]. *)
Definition cart_without_id (uid : Z) : Cart :=
  {| c_id := Absent;
     c_userId := Val uid;
     c_total := Absent;
     c_discountedTotal := Absent;
     c_totalProducts := Absent;
     c_totalQuantity := Absent;
     c_products := Val [sample_product] |}.

Definition sample_user : User :=
  {| u_id := Val 10;
     u_firstName := Val "Jo"%string;
     u_lastName := Val "Doe"%string;
     u_email := Absent;
     u_address := Absent;
     u_age := Absent;
     u_gender := Absent |}.

(** A user that has an identifier and nothing else. *)
Definition nameless_user : User :=
  {| u_id := Val 11;
     u_firstName := Absent;
     u_lastName := Absent;
     u_email := Absent;
     u_address := Absent;
     u_age := Absent;
     u_gender := Absent |}.

Definition sample_users : UsersPayload :=
  {| up_users := Val [sample_user; nameless_user] |}.

(** Two product rows of the same user in two carts: in the first the
    name is three spaces, in the second there is no name. *)
Definition split_customer_frame : DataFrame :=
  [ row_with_blank_name;
    sample_row (Some 2) (Some 10) (Some 100) None
      (Some (F64.of_Z 20)) (Some 2) (Some (F64.of_Z 40)) (Some "2026-11-03"%string) ].


(** Three products of one cart of one customer. *)
Definition three_products_frame : DataFrame :=
  [ sample_row (Some 1) (Some 10) (Some 100) (Some "Jo Doe"%string)
      (Some (F64.of_Z 20)) (Some 2) None (Some "2026-11-03"%string);
    sample_row (Some 1) (Some 10) (Some 101) (Some "Jo Doe"%string)
      (Some (F64.of_Z 5)) (Some 1) None (Some "2026-11-03"%string);
    sample_row (Some 1) (Some 10) (Some 102) (Some "Jo Doe"%string)
      (Some (F64.of_Z 7)) (Some 3) None (Some "2026-11-03"%string) ].

(** A cart whose product list is empty. *)
Definition cart_without_products (id uid : Z) : Cart :=
  {| c_id := Val id;
     c_userId := Val uid;
     c_total := Absent;
     c_discountedTotal := Absent;
     c_totalProducts := Absent;
     c_totalQuantity := Absent;
     c_products := Val [] |}.

(** A user dict without the key ["id"]. *)
Definition user_without_id : User :=
  {| u_id := Absent;
     u_firstName := Val "Al"%string;
     u_lastName := Absent;
     u_email := Absent;
     u_address := Absent;
     u_age := Absent;
     u_gender := Absent |}.

(** A second user with the identifier 10. *)
Definition second_user_10 : User :=
  {| u_id := Val 10;
     u_firstName := Val "Ann"%string;
     u_lastName := Val "Lee"%string;
     u_email := Absent;
     u_address := Absent;
     u_age := Absent;
     u_gender := Absent |}.

(** A row whose line total is zero, and one whose line total is seven:
    the price is twenty and the quantity two in both. *)
Definition row_with_zero_total : Row :=
  sample_row (Some 1) (Some 10) (Some 100) (Some "Jo Doe"%string)
    (Some (F64.of_Z 20)) (Some 2) (Some (F64.of_Z 0)) (Some "2026-11-03"%string).

Definition row_with_total_seven : Row :=
  sample_row (Some 1) (Some 10) (Some 101) (Some "Jo Doe"%string)
    (Some (F64.of_Z 20)) (Some 2) (Some (F64.of_Z 7)) (Some "2026-11-03"%string).

(** A user with a first name and without a last name. *)
Definition user_jo : User :=
  {| u_id := Val 12;
     u_firstName := Val "Jo"%string;
     u_lastName := Absent;
     u_email := Val "jo@example.com"%string;
     u_address := Val {| a_city := Val "Oslo"%string |};
     u_age := Val 30;
     u_gender := Val "female"%string |}.

(* ===================================================================== *)
(** * Vocabulary of the further properties *)
(* ===================================================================== *)

(** The products that the inner loop of the flattener visits. *)
Definition products_of (cart : Cart) : list Product :=
  or_empty_list (get_default (c_products cart) []).

(** The user [u] is stored under the key [k] of the lookup table. *)
Definition has_id (k : option Z) (u : User) : bool :=
  match u_id u, k with
  | Null, None => true
  | Val a, Some b => bool_decide (a = b)
  | _, _ => false
  end.

(** The last day that a [datetime.date] can hold, 9999-12-31. *)
Definition max_ordinal : Z := 3652059.

(** The end of [Date.ord2ymd]: the month and the day of the month of the
    day number [n], from 0, of a year that is a leap year or not. *)
Definition month_and_day (leapyear : bool) (n : Z) : Z * Z :=
  let month := Z.shiftr (n + 50) 5 in
  let preceding :=
    nth (Z.to_nat month) [0; 0; 31; 59; 90; 120; 151; 181; 212; 243; 273; 304; 334] 0
    + (if (2 <? month) && leapyear then 1 else 0) in
  if n <? preceding
  then
    let month := month - 1 in
    let preceding :=
      preceding
      - (nth (Z.to_nat month) [0; 31; 28; 31; 30; 31; 30; 31; 31; 30; 31; 30; 31] 0
         + (if (month =? 2) && leapyear then 1 else 0)) in
    (month, n - preceding + 1)
  else (month, n - preceding + 1).

(** The month and the day of [month_and_day] exist in the calendar and
    are the day number [n]. *)
Definition month_and_day_ok (leapyear : bool) (n : Z) : bool :=
  let '(m, d) := month_and_day leapyear n in
  (1 <=? m) && (m <=? 12) && (1 <=? d)
  && (d <=? (if (m =? 2) && leapyear then 29
             else nth (Z.to_nat m) [0; 31; 28; 31; 30; 31; 30; 31; 31; 30; 31; 30; 31] 0))
  && (nth (Z.to_nat m) [0; 0; 31; 59; 90; 120; 151; 181; 212; 243; 273; 304; 334] 0
      + (if (2 <? m) && leapyear then 1 else 0) + d =? n + 1).

(* ===================================================================== *)
(** * Facts about text *)
(* ===================================================================== *)

Section TextFacts.
Import Text.

Lemma lower_char_idem c : lower_char (lower_char c) = lower_char c.
Proof. by destruct c as [[] [] [] [] [] [] [] []]. Qed.

Lemma py_isspace_lower c : py_isspace (lower_char c) = py_isspace c.
Proof. by destruct c as [[] [] [] [] [] [] [] []]. Qed.

Lemma is_whitespace_lower c : is_whitespace (lower_char c) = is_whitespace c.
Proof. by destruct c as [[] [] [] [] [] [] [] []]. Qed.

Lemma is_whitespace_py_isspace c : is_whitespace c = true → py_isspace c = true.
Proof. by destruct c as [[] [] [] [] [] [] [] []]. Qed.

Lemma to_lowercase_idem s : to_lowercase (to_lowercase s) = to_lowercase s.
Proof. induction s as [|c s IH]; simpl; [done|]. by rewrite lower_char_idem, IH. Qed.

Variable sp : ascii → bool.

Lemma lstrip_length s : (String.length (lstrip sp s) ≤ String.length s)%nat.
Proof. induction s as [|c s IH]; simpl; [lia|]. destruct (sp c); simpl; lia. Qed.

(** A string that [lstrip] leaves alone is empty or starts outside [sp]. *)
Lemma lstrip_fixed_head c s : lstrip sp (String c s) = String c s → sp c = false.
Proof.
    simpl. destruct (sp c); [|done]. intros E.
    pose proof (lstrip_length s) as L. rewrite E in L. simpl in L. lia.
Qed.

Lemma lstrip_idem s : lstrip sp (lstrip sp s) = lstrip sp s.
Proof.
    induction s as [|c s IH]; simpl; [done|].
    destruct (sp c) eqn:E; [done|]. simpl. by rewrite E.
Qed.

Lemma rstrip_idem s : rstrip sp (rstrip sp s) = rstrip sp s.
Proof.
    induction s as [|c s IH]; simpl; [done|].
    destruct (rstrip sp s) as [|d t] eqn:E.
    - destruct (sp c) eqn:Ec; simpl; [done|]. by rewrite Ec.
    - change (rstrip sp (String c (String d t))) with
        (match rstrip sp (String d t) with
         | EmptyString => if sp c then EmptyString else String c EmptyString
         | u => String c u
         end).
      by rewrite IH.
Qed.

Lemma rstrip_keeps_head c s :
    sp c = false → ∃ t, rstrip sp (String c s) = String c t.
Proof.
    intros E. simpl. destruct (rstrip sp s); [rewrite E|]; eauto.
Qed.

Lemma lstrip_rstrip_fixed s :
    lstrip sp s = s → lstrip sp (rstrip sp s) = rstrip sp s.
Proof.
    destruct s as [|c s]; [done|]. intros E%lstrip_fixed_head.
    destruct (rstrip_keeps_head c s E) as [t ->]. simpl. by rewrite E.
Qed.

Lemma strip_with_stripped s : stripped sp (strip_with sp s).
Proof.
    split; unfold strip_with.
    - apply lstrip_rstrip_fixed, lstrip_idem.
    - apply rstrip_idem.
Qed.

Lemma stripped_strip_with s : stripped sp s → strip_with sp s = s.
Proof. intros [E1 E2]. unfold strip_with. by rewrite E1. Qed.

Lemma strip_with_idem s : strip_with sp (strip_with sp s) = strip_with sp s.
Proof. apply stripped_strip_with, strip_with_stripped. Qed.

(** A string that [rstrip] leaves alone is empty or ends outside [sp]. *)
Lemma rstrip_fixed_cons c s :
    rstrip sp (String c s) = String c s →
    (s = EmptyString ∧ sp c = false) ∨ (s ≠ EmptyString ∧ rstrip sp s = s).
Proof.
    simpl. destruct (rstrip sp s) as [|d t] eqn:E.
    - destruct (sp c); [done|]. intros [= <-]. by left.
    - intros [= <-]. by right.
Qed.

(** A space at either end of a string is trimmed with the rest of the
    white space. *)
Lemma rstrip_app_space s :
  sp " "%char = true → rstrip sp (s ++ " ") = rstrip sp s.
Proof.
  intros Hsp. induction s as [|c s IH].
  - change (rstrip sp (String " " EmptyString) = EmptyString).
    cbn [rstrip]. by rewrite Hsp.
  - change (rstrip sp (String c (s ++ " ")) = rstrip sp (String c s)).
    cbn [rstrip]. by rewrite IH.
Qed.

Lemma strip_with_app_space s :
  sp " "%char = true → strip_with sp (s ++ " ") = strip_with sp s.
Proof.
  intros Hsp. unfold strip_with. induction s as [|c s IH].
  - change (rstrip sp (lstrip sp (String " " EmptyString)) = EmptyString).
    cbn [lstrip]. by rewrite Hsp.
  - change (rstrip sp (lstrip sp (String c (s ++ " ")))
            = rstrip sp (lstrip sp (String c s))).
    cbn [lstrip]. destruct (sp c); [done|].
    by apply (rstrip_app_space (String c s)).
Qed.

Lemma strip_with_space_app s :
  sp " "%char = true → strip_with sp (" " ++ s) = strip_with sp s.
Proof.
  intros Hsp. unfold strip_with.
  change (" " ++ s)%string with (String " " s). cbn [lstrip]. by rewrite Hsp.
Qed.

Section Finer.
    (** [sp'] removes no more than [sp] does. *)
Variable sp' : ascii → bool.
Hypothesis finer : ∀ c, sp' c = true → sp c = true.

Lemma finer_false c : sp c = false → sp' c = false.
Proof. intros E. destruct (sp' c) eqn:E'; [|done]. apply finer in E'. congruence. Qed.

Lemma rstrip_fixed_finer s : rstrip sp s = s → rstrip sp' s = s.
Proof.
      induction s as [|c s IH]; [done|].
      intros [[-> E]|[Hne E]]%rstrip_fixed_cons.
      - simpl. by rewrite (finer_false _ E).
      - simpl. rewrite (IH E). by destruct s.
Qed.

Lemma stripped_finer s : stripped sp s → stripped sp' s.
Proof.
      intros [E1 E2]. split; [|by apply rstrip_fixed_finer].
      destruct s as [|c s]; [done|]. apply lstrip_fixed_head in E1.
      simpl. by rewrite (finer_false _ E1).
Qed.
End Finer.

Section Lower.
Hypothesis sp_lower : ∀ c, sp (lower_char c) = sp c.

Lemma lstrip_to_lowercase s :
      lstrip sp (to_lowercase s) = to_lowercase (lstrip sp s).
Proof.
      induction s as [|c s IH]; simpl; [done|].
      rewrite sp_lower. by destruct (sp c).
Qed.

Lemma rstrip_to_lowercase s :
      rstrip sp (to_lowercase s) = to_lowercase (rstrip sp s).
Proof.
      induction s as [|c s IH]; simpl; [done|].
      rewrite IH, sp_lower. destruct (rstrip sp s); simpl; [|done].
      by destruct (sp c).
Qed.

Lemma strip_with_to_lowercase s :
      strip_with sp (to_lowercase s) = to_lowercase (strip_with sp s).
Proof. unfold strip_with. by rewrite lstrip_to_lowercase, rstrip_to_lowercase. Qed.
End Lower.
End TextFacts.

(** The title after the normalizer is the lower-cased Python-stripped
    title: nothing is left for [strip_chars] to remove. *)
Lemma title_normal_form s :
  Text.strip_chars (Text.to_lowercase (Text.py_strip s))
  = Text.to_lowercase (Text.py_strip s).
Proof.
  unfold Text.strip_chars, Text.py_strip.
  rewrite (strip_with_to_lowercase _ is_whitespace_lower).
  f_equal. apply stripped_strip_with.
  apply (stripped_finer Text.py_isspace _ is_whitespace_py_isspace).
  apply strip_with_stripped.
Qed.

Lemma title_normal_form_fixed s :
  Text.to_lowercase (Text.py_strip (Text.to_lowercase (Text.py_strip s)))
  = Text.to_lowercase (Text.py_strip s).
Proof.
  unfold Text.py_strip.
  rewrite (strip_with_to_lowercase _ py_isspace_lower).
  by rewrite to_lowercase_idem, strip_with_idem.
Qed.

(* ===================================================================== *)
(** * The normalizer *)
(* ===================================================================== *)

Lemma normalize_row_product_id r : product_id (normalize_row r) = product_id r.
Proof. done. Qed.

(** The normalizer is one function applied to each row that has a product
    identifier, in the order of the input. *)
Lemma clean_and_transform_rows df :
  clean_and_transform df
  = normalize_row <$> filter (λ r, is_Some (product_id r)) df.
Proof.
  unfold clean_and_transform.
  induction df as [|r df IH]; [done|].
  rewrite !fmap_cons, filter_cons, IH, (filter_cons _ r).
  change (product_id (standardize_title (compute_total_amount (clean_columns r))))
    with (product_id r).
  by destruct (decide (is_Some (product_id r))).
Qed.

Lemma fill_null_idem {A} (v : A) (c : option A) : fill_null v (fill_null v c) = fill_null v c.
Proof. by destruct c. Qed.

Lemma customer_name_clean_idem (c : option string) :
  fill_null "No Data"%string
    (Text.py_strip <$> fill_null "No Data"%string (Text.py_strip <$> c))
  = fill_null "No Data"%string (Text.py_strip <$> c).
Proof.
  destruct c as [s|]; simpl; [|done].
  unfold Text.py_strip. by rewrite strip_with_idem.
Qed.

Lemma product_title_clean_idem (c : option string) :
  (λ s, Text.strip_chars (Text.to_lowercase s)) <$>
    (Text.py_strip <$>
      ((λ s, Text.strip_chars (Text.to_lowercase s)) <$> (Text.py_strip <$> c)))
  = (λ s, Text.strip_chars (Text.to_lowercase s)) <$> (Text.py_strip <$> c).
Proof.
  destruct c as [s|]; simpl; [|done].
  by rewrite !title_normal_form, title_normal_form_fixed.
Qed.

(** Two rows with the same cells are the same row. *)
Lemma row_ext (r1 r2 : Row) :
  cart_id r1 = cart_id r2 → user_id r1 = user_id r2 →
  cart_total r1 = cart_total r2 →
  cart_discounted_total r1 = cart_discounted_total r2 →
  cart_total_products r1 = cart_total_products r2 →
  cart_total_quantity r1 = cart_total_quantity r2 →
  product_id r1 = product_id r2 → product_title r1 = product_title r2 →
  product_price r1 = product_price r2 →
  product_quantity r1 = product_quantity r2 →
  product_total r1 = product_total r2 →
  first_name r1 = first_name r2 → last_name r1 = last_name r2 →
  customer_name r1 = customer_name r2 → email r1 = email r2 →
  city r1 = city r2 → age r1 = age r2 → gender r1 = gender r2 →
  order_date r1 = order_date r2 → total_amount r1 = total_amount r2 →
  r1 = r2.
Proof. destruct r1, r2. cbn. intros. by subst. Qed.

(** The cells of a normalized row, column by column. *)
Lemma normalize_row_product_title r :
  product_title (normalize_row r)
  = (λ s, Text.strip_chars (Text.to_lowercase s)) <$> (Text.py_strip <$> product_title r).
Proof. done. Qed.

Lemma normalize_row_customer_name r :
  customer_name (normalize_row r)
  = fill_null "No Data"%string (Text.py_strip <$> customer_name r).
Proof. done. Qed.

Lemma normalize_row_first_name r :
  first_name (normalize_row r) = fill_null "No Data"%string (first_name r).
Proof. done. Qed.

Lemma normalize_row_last_name r :
  last_name (normalize_row r) = fill_null "No Data"%string (last_name r).
Proof. done. Qed.

Lemma normalize_row_email r :
  email (normalize_row r) = fill_null "No Data"%string (email r).
Proof. done. Qed.

Lemma normalize_row_city r :
  city (normalize_row r) = fill_null "No Data"%string (city r).
Proof. done. Qed.

Lemma normalize_row_gender r :
  gender (normalize_row r) = fill_null "No Data"%string (gender r).
Proof. done. Qed.

Lemma normalize_row_age r :
  age (normalize_row r) = AgeStr (fill_null "No Data"%string (cast_utf8 (age r))).
Proof. done. Qed.

Lemma normalize_row_total_amount r :
  total_amount (normalize_row r)
  = when_then_otherwise
      (or3 (is_null (product_total r)) (eq_lit (product_total r) (F64.of_Z 0)))
      (mul_cells (product_price r) (product_quantity r))
      (product_total r).
Proof. done. Qed.

Lemma normalize_row_idem r : normalize_row (normalize_row r) = normalize_row r.
Proof.
  apply row_ext; try done.
  - rewrite !normalize_row_product_title. apply product_title_clean_idem.
  - rewrite !normalize_row_first_name. apply fill_null_idem.
  - rewrite !normalize_row_last_name. apply fill_null_idem.
  - rewrite !normalize_row_customer_name. apply customer_name_clean_idem.
  - rewrite !normalize_row_email. apply fill_null_idem.
  - rewrite !normalize_row_city. apply fill_null_idem.
  - rewrite !normalize_row_age. cbn [cast_utf8]. by rewrite fill_null_idem.
  - rewrite !normalize_row_gender. apply fill_null_idem.
Qed.

Lemma filter_product_id_normalized (df : list Row) :
  filter (λ r, is_Some (product_id r)) (normalize_row <$> df)
  = normalize_row <$> filter (λ r, is_Some (product_id r)) df.
Proof.
  induction df as [|r df IH]; [done|].
  rewrite !fmap_cons, filter_cons, IH, (filter_cons _ r), normalize_row_product_id.
  by destruct (decide (is_Some (product_id r))).
Qed.

(** C6: the row at index [i] of the normalizer's output comes from the
    row [r] at index [i] of the input rows that have a product identifier;
    its [total_amount] is the double product of the price by the quantity
    (null when one of the two is null) when [product_total] is null or
    equal to zero, and [product_total] otherwise. *)
Theorem total_amount_rule (df : DataFrame) (i : nat) (r : Row) :
  filter (λ r, is_Some (product_id r)) df !! i = Some r →
  ∃ o, clean_and_transform df !! i = Some o
       ∧ total_amount o =
         match product_total r with
         | Some total =>
             if F64.eqb total F64.zero then
               match product_price r, product_quantity r with
               | Some price, Some quantity => Some (F64.mul price (F64.of_Z quantity))
               | _, _ => None
               end
             else Some total
         | None =>
             match product_price r, product_quantity r with
             | Some price, Some quantity => Some (F64.mul price (F64.of_Z quantity))
             | _, _ => None
             end
         end.
Proof.
  intros Hi. exists (normalize_row r). split.
  - rewrite clean_and_transform_rows. unfold DataFrame in *.
    by rewrite list_lookup_fmap, Hi.
  - rewrite normalize_row_total_amount.
    unfold eq_lit, is_null, mul_cells.
    change (F64.of_Z 0) with F64.zero.
    destruct (product_total r) as [total|]; cbn [or3 when_then_otherwise].
    + by destruct (F64.eqb total F64.zero).
    + done.
Qed.

(** Twenty times two is forty when the line total is zero, and a line
    total of seven stays seven. *)
Lemma total_amount_rule_witness :
  (∃ o, clean_and_transform [row_with_zero_total; row_with_total_seven] !! 0%nat = Some o
        ∧ total_amount o = Some (S754_finite false 5629499534213120 (-47)))
  ∧ (∃ o, clean_and_transform [row_with_zero_total; row_with_total_seven] !! 1%nat = Some o
          ∧ total_amount o = Some (S754_finite false 7881299347898368 (-50))).
Proof.
  split.
  - destruct (total_amount_rule [row_with_zero_total; row_with_total_seven]
                0 row_with_zero_total) as (o & Ho & Ht); [reflexivity|].
    exists o. split; [exact Ho|]. rewrite Ht. vm_compute. reflexivity.
  - destruct (total_amount_rule [row_with_zero_total; row_with_total_seven]
                1 row_with_total_seven) as (o & Ho & Ht); [reflexivity|].
    exists o. split; [exact Ho|]. rewrite Ht. vm_compute. reflexivity.
Defined.

Lemma normalize_row_product_total r : product_total (normalize_row r) = product_total r.
Proof. done. Qed.

Lemma normalize_row_product_price r : product_price (normalize_row r) = product_price r.
Proof. done. Qed.

Lemma normalize_row_product_quantity r :
  product_quantity (normalize_row r) = product_quantity r.
Proof. done. Qed.

Lemma normalize_row_user_id r : user_id (normalize_row r) = user_id r.
Proof. done. Qed.

(** C3, the input on which [total_amount] is null after the normalizer:
    neither a line total nor a price. *)
Lemma total_amount_null_without_price :
  total_amount <$> clean_and_transform [row_without_price] = [None].
Proof. reflexivity. Qed.

(** C3, amended: after the normalizer [total_amount] is null exactly when
    [product_total] is null or zero and [product_price] or
    [product_quantity] is null; in every other case it is not null. *)
Theorem total_amount_null_iff (df : DataFrame) :
  Forall
    (λ o, total_amount o = None ↔
          null_or_zero (product_total o) = true
          ∧ (product_price o = None ∨ product_quantity o = None))
    (clean_and_transform df).
Proof.
  rewrite clean_and_transform_rows.
  apply Forall_fmap, Forall_forall. intros r _. unfold compose.
  rewrite normalize_row_total_amount, normalize_row_product_total,
    normalize_row_product_price, normalize_row_product_quantity.
  unfold null_or_zero, eq_lit, is_null, mul_cells.
  destruct (product_total r) as [x|]; cbn [or3 when_then_otherwise].
  - destruct (F64.eqb x (F64.of_Z 0)); cbn [or3 when_then_otherwise].
    + destruct (product_price r), (product_quantity r); intuition congruence.
    + intuition congruence.
  - destruct (product_price r), (product_quantity r); intuition congruence.
Qed.

(** C8: the normalizer keeps exactly the rows that have a product
    identifier, each normalized and in the order of the input, so that no
    row of its output has a null [product_id]. *)
Theorem rows_without_product_id_dropped (df : DataFrame) :
  clean_and_transform df
  = normalize_row <$> filter (λ r, is_Some (product_id r)) df
  ∧ (∀ r, product_id (normalize_row r) = product_id r)
  ∧ Forall (λ o, is_Some (product_id o)) (clean_and_transform df)
  ∧ length (clean_and_transform df)
    = length (filter (λ r, is_Some (product_id r)) df).
Proof.
  rewrite clean_and_transform_rows. split_and!; [done|done| |by rewrite length_fmap].
  apply Forall_fmap, Forall_forall. intros r Hr. unfold compose.
  rewrite normalize_row_product_id.
  by apply list_elem_of_filter in Hr as [? _].
Qed.

Lemma filter_product_id_twice (df : list Row) :
  filter (λ r, is_Some (product_id r)) (filter (λ r, is_Some (product_id r)) df)
  = filter (λ r, is_Some (product_id r)) df.
Proof.
  induction df as [|r df IH]; [done|].
  rewrite (filter_cons _ r).
  destruct (decide (is_Some (product_id r))) as [H|H]; [|done].
  rewrite (filter_cons _ r), IH. by destruct (decide (is_Some (product_id r))).
Qed.

(** C9: normalizing a normalized frame changes nothing. *)
Theorem clean_and_transform_idempotent (df : DataFrame) :
  clean_and_transform (clean_and_transform df) = clean_and_transform df.
Proof.
  rewrite !clean_and_transform_rows, filter_product_id_normalized.
  rewrite filter_product_id_twice, <- list_fmap_compose.
  apply list_fmap_ext. intros i r _. apply normalize_row_idem.
Qed.

(* ===================================================================== *)
(** * The flattener *)
(* ===================================================================== *)

(** Every entry of the lookup table was there at the start or comes from a
    user of the list, under the identifier of that user. *)
Lemma build_user_map_inv (users : list User) (m m' : gmap (option Z) User) :
  build_user_map m users = Ok m' →
  ∀ k u, m' !! k = Some u →
         m !! k = Some u ∨ (u ∈ users ∧ item (u_id u) = Ok k).
Proof.
  revert m. induction users as [|u0 users IH]; intros m Hb k u Hk.
  - injection Hb as <-. by left.
  - cbn in Hb. destruct (item (u_id u0)) as [k0|e] eqn:E; [|done]. cbn in Hb.
    destruct (IH _ Hb k u Hk) as [Hm|[Hin Hid]].
    + destruct (decide (k0 = k)) as [->|Hne].
      * rewrite lookup_insert_eq in Hm. injection Hm as <-.
        right. split; [left|done].
      * rewrite lookup_insert_ne in Hm by done. by left.
    + right. split; [by right|done].
Qed.

(** A user of the lookup table is a dict with the key ["id"], hence true
    in [if user:]. *)
Lemma user_map_of_truthy up um k u :
  user_map_of up = Ok um → um !! k = Some u → user_truthy u = true.
Proof.
  unfold user_map_of. destruct (py_iter _) as [users|e]; [|done]. cbn.
  intros Hb Hk. destruct (build_user_map_inv _ _ _ Hb k u Hk) as [Hm|[_ Hid]].
  - by rewrite lookup_empty in Hm.
  - unfold user_truthy. by destruct (u_id u).
Qed.

Lemma user_map_of_users up um :
  user_map_of up = Ok um → build_user_map ∅ (users_of up) = Ok um.
Proof.
  unfold user_map_of, users_of.
  by destruct (get_default (up_users up) []) as [users|].
Qed.

(** An identifier that no user carries is not in the lookup table. *)
Lemma user_map_of_unmatched up um k :
  user_map_of up = Ok um →
  (∀ u, u ∈ users_of up → item (u_id u) ≠ Ok k) →
  um !! k = None.
Proof.
  intros Hb%user_map_of_users Hno.
  destruct (um !! k) as [u|] eqn:Hk; [|done].
  destruct (build_user_map_inv _ _ _ Hb k u Hk) as [Hm|[Hin Hid]].
  - by rewrite lookup_empty in Hm.
  - by destruct (Hno u Hin).
Qed.

Lemma product_row_user_id um cart p :
  user_id (product_row um cart p) = get (c_userId cart).
Proof.
  unfold product_row. destruct (um !! get (c_userId cart)) as [u|]; [|done].
  by destruct (user_truthy u).
Qed.

Lemma product_row_cart_id um cart p :
  cart_id (product_row um cart p) = get (c_id cart).
Proof.
  unfold product_row. destruct (um !! get (c_userId cart)) as [u|]; [|done].
  by destruct (user_truthy u).
Qed.

(** The customer cells of a row whose cart has no user in the table. *)
Lemma product_row_unmatched um cart p :
  um !! get (c_userId cart) = None →
  first_name (product_row um cart p) = None
  ∧ last_name (product_row um cart p) = None
  ∧ customer_name (product_row um cart p) = None.
Proof. unfold product_row. by intros ->. Qed.

(** The name cells of a row whose cart has a user in the table. *)
Lemma product_row_matched um cart p u :
  um !! get (c_userId cart) = Some u → user_truthy u = true →
  first_name (product_row um cart p) = Some (or_empty_str (get (u_firstName u)))
  ∧ last_name (product_row um cart p) = Some (or_empty_str (get (u_lastName u)))
  ∧ customer_name (product_row um cart p)
    = Some (Text.py_strip (or_empty_str (get (u_firstName u)) ++ " "
                           ++ or_empty_str (get (u_lastName u)))%string).
Proof. unfold product_row. by intros -> ->. Qed.

Lemma elem_of_flatten um carts r :
  r ∈ flatten um carts ↔
  ∃ cart p, cart ∈ carts
            ∧ p ∈ or_empty_list (get_default (c_products cart) [])
            ∧ r = product_row um cart p.
Proof.
  unfold flatten, cart_rows. rewrite list_elem_of_bind. split.
  - intros (cart & (p & -> & Hp)%list_elem_of_fmap & Hc). eauto.
  - intros (cart & p & Hc & Hp & ->). exists cart. split; [|done].
    apply list_elem_of_fmap. eauto.
Qed.

(** The frame that leaves the two [with_columns] of the flattener. *)
Lemma typed_frame_inv dm (rows df : list Row) :
  add_order_date dm rows ≫= normalize_types = Ok df →
  df = with_order_date dm <$> rows.
Proof.
  unfold add_order_date. destruct (null_dtype _); [done|]. cbn.
  unfold normalize_types. destruct (forallb _ _); [|done]. by intros [= <-].
Qed.

(** What a successful run of the flattener went through. *)
Lemma extract_from_api_inv today cp up df :
  extract_from_api today cp up = Ok df →
  ∃ um carts date_map,
    user_map_of up = Ok um
    ∧ get_default (cp_carts cp) [] = Some carts
    ∧ df = with_order_date date_map <$> flatten um carts.
Proof.
  unfold extract_from_api, user_map_of.
  destruct (py_iter (get_default (up_users up) [])) as [users|e]; [|done]. cbn.
  destruct (build_user_map ∅ users) as [um|e]; [|done]. cbn.
  destruct (get_default (cp_carts cp) []) as [carts|]; [|done]. cbn.
  destruct (flatten um carts) as [|r rows] eqn:Hrows.
  - intros [= <-]. exists um, carts, ∅. by rewrite Hrows.
  - destruct (py_sorted _) as [ids|e]; [|done]. cbn. intros ->%typed_frame_inv.
    exists um, carts, (build_date_map today 0 ids ∅). by rewrite Hrows.
Qed.

Lemma with_order_date_user_id dm r : user_id (with_order_date dm r) = user_id r.
Proof. done. Qed.

Lemma with_order_date_names dm r :
  first_name (with_order_date dm r) = first_name r
  ∧ last_name (with_order_date dm r) = last_name r
  ∧ customer_name (with_order_date dm r) = customer_name r.
Proof. done. Qed.

(** A row of the normalizer's output, traced back through the flattener. *)
Lemma clean_extracted_row today cp up df o :
  extract_from_api today cp up = Ok df → o ∈ clean_and_transform df →
  ∃ um cart p date_map,
    user_map_of up = Ok um
    ∧ o = normalize_row (with_order_date date_map (product_row um cart p)).
Proof.
  intros (um & carts & dm & Hum & _ & ->)%extract_from_api_inv.
  rewrite clean_and_transform_rows.
  intros (r' & -> & [_ Hr']%list_elem_of_filter)%list_elem_of_fmap.
  apply list_elem_of_fmap in Hr' as (r & -> & Hr).
  apply elem_of_flatten in Hr as (cart & p & _ & _ & ->).
  by exists um, cart, p, dm.
Qed.

(** C1, the inputs on which the claim fails: a name of three spaces is
    empty after the trim and stays empty; and on the frame of one cart of
    user 99, whom the users payload does not have, the normalizer raises
    instead of returning a row named ["No Data"]. *)
Lemma blank_customer_name_stays_empty :
  customer_name <$> clean_and_transform [row_with_blank_name]
  = [Some EmptyString]
  ∧ extract_from_api sample_today {| cp_carts := Val [sample_cart 1 99] |} sample_users
    ≫= clean_and_transform_extracted
    = Err PolarsError.
Proof. split; vm_compute; reflexivity. Qed.

(** C1, amended: the normalizer replaces a null [customer_name] by
    ["No Data"] and a name that is not null by its trimmed text; in
    particular, when the normalizer returns on the frame of the flattener,
    a row whose cart has a [userId] that no user carries ends up with
    [customer_name = "No Data"]. *)
Theorem customer_name_imputed :
  (∀ df : DataFrame,
     Forall2
       (λ r o, customer_name o =
               match customer_name r with
               | None => Some "No Data"%string
               | Some s => Some (Text.py_strip s)
               end)
       (filter (λ r, is_Some (product_id r)) df)
       (clean_and_transform df))
  ∧ (∀ today cp up df out o,
       extract_from_api today cp up = Ok df →
       clean_and_transform_extracted df = Ok out →
       o ∈ out →
       (∀ u, u ∈ users_of up → item (u_id u) ≠ Ok (user_id o)) →
       customer_name o = Some "No Data"%string).
Proof.
  split.
  - intros df. rewrite clean_and_transform_rows.
    apply Forall2_fmap_r, Forall_Forall2_diag, Forall_forall.
    intros r _. unfold compose. rewrite normalize_row_customer_name.
    by destruct (customer_name r).
  - intros today cp up df out o Hex Hout Ho Hno.
    unfold clean_and_transform_extracted in Hout.
    destruct (null_dtype _); [done|]. injection Hout as <-.
    destruct (clean_extracted_row _ _ _ _ _ Hex Ho) as (um & cart & p & dm & Hum & ->).
    rewrite normalize_row_user_id, with_order_date_user_id, product_row_user_id in Hno.
    pose proof (user_map_of_unmatched _ _ _ Hum Hno) as Hk.
    destruct (product_row_unmatched um cart p Hk) as (_ & _ & Hn).
    rewrite normalize_row_customer_name.
    destruct (with_order_date_names dm (product_row um cart p)) as (_ & _ & ->).
    by rewrite Hn.
Qed.

(** A cart of user 10 and a cart of user 99, whom the users payload does
    not have: the row of user 99 in the normalized frame is named
    ["No Data"]. *)
Lemma customer_name_imputed_witness :
  ∃ df out o,
    extract_from_api sample_today
      {| cp_carts := Val [sample_cart 1 10; sample_cart 2 99] |} sample_users
    = Ok df
    ∧ clean_and_transform_extracted df = Ok out
    ∧ o ∈ out
    ∧ user_id o = Some 99
    ∧ customer_name o = Some "No Data"%string.
Proof.
  eexists _, _, _. split; [vm_compute; reflexivity|].
  split; [vm_compute; reflexivity|]. split; [vm_compute; right; left|].
  split; [reflexivity|].
  eapply (proj2 customer_name_imputed sample_today
            {| cp_carts := Val [sample_cart 1 10; sample_cart 2 99] |} sample_users);
    [vm_compute; reflexivity|vm_compute; reflexivity|vm_compute; right; left|].
  intros u Hu. unfold users_of, sample_users in Hu. cbn in Hu.
  apply elem_of_cons in Hu as [->|Hu]; [done|].
  apply elem_of_cons in Hu as [->|Hu]; [done|].
  by apply elem_of_nil in Hu.
Defined.

(** The trimmed ["first last"] when the last name, or the first name, is
    the empty string. *)
Lemma py_strip_first_only (f : string) :
  Text.py_strip (f ++ " " ++ "") = Text.py_strip f.
Proof.
  change (f ++ " " ++ "")%string with (f ++ " ")%string.
  by apply strip_with_app_space.
Qed.

Lemma py_strip_last_only (l : string) :
  Text.py_strip ("" ++ " " ++ l) = Text.py_strip l.
Proof.
  change ("" ++ " " ++ l)%string with (" " ++ l)%string.
  by apply strip_with_space_app.
Qed.

(** The name cells that the flattener writes for a user of the table. *)
Lemma names_of_matched_row (u : User) (first last name : option string) :
  first = Some (or_empty_str (get (u_firstName u))) →
  last = Some (or_empty_str (get (u_lastName u))) →
  name = Some (Text.py_strip (or_empty_str (get (u_firstName u)) ++ " "
                              ++ or_empty_str (get (u_lastName u)))%string) →
  (get (u_firstName u) = None → first = Some EmptyString)
  ∧ (get (u_lastName u) = None → last = Some EmptyString)
  ∧ (get (u_firstName u) = None → get (u_lastName u) = None →
     name = Some EmptyString)
  ∧ (∀ f, get (u_firstName u) = Some f → get (u_lastName u) = None →
       first = Some f ∧ name = Some (Text.py_strip f))
  ∧ (∀ l, get (u_firstName u) = None → get (u_lastName u) = Some l →
       last = Some l ∧ name = Some (Text.py_strip l)).
Proof.
  intros -> -> ->. split_and!.
  - by intros ->.
  - by intros ->.
  - by intros -> ->.
  - intros f -> ->. cbn [or_empty_str default]. by rewrite py_strip_first_only.
  - intros l -> ->. cbn [or_empty_str default]. by rewrite py_strip_last_only.
Qed.

(** C10: when the cart's user is in the table and has no [firstName] (no
    [lastName]; the key is absent or null), the flattener writes the empty
    string, not null, into [first_name] ([last_name]), and [customer_name]
    is the trimmed ["first last"]: empty when both are absent, the trimmed
    first name when only the last name is absent, the trimmed last name
    when only the first name is absent; the normalizer, which fills nulls
    only, leaves these cells as they are. *)
Theorem absent_names_stay_empty today cp up um df :
  user_map_of up = Ok um →
  extract_from_api today cp up = Ok df →
  (∀ r u, r ∈ df → um !! user_id r = Some u →
     (get (u_firstName u) = None → first_name r = Some EmptyString)
     ∧ (get (u_lastName u) = None → last_name r = Some EmptyString)
     ∧ (get (u_firstName u) = None → get (u_lastName u) = None →
        customer_name r = Some EmptyString)
     ∧ (∀ f, get (u_firstName u) = Some f → get (u_lastName u) = None →
          first_name r = Some f ∧ customer_name r = Some (Text.py_strip f))
     ∧ (∀ l, get (u_firstName u) = None → get (u_lastName u) = Some l →
          last_name r = Some l ∧ customer_name r = Some (Text.py_strip l)))
  ∧ (∀ o u, o ∈ clean_and_transform df → um !! user_id o = Some u →
     (get (u_firstName u) = None → first_name o = Some EmptyString)
     ∧ (get (u_lastName u) = None → last_name o = Some EmptyString)
     ∧ (get (u_firstName u) = None → get (u_lastName u) = None →
        customer_name o = Some EmptyString)
     ∧ (∀ f, get (u_firstName u) = Some f → get (u_lastName u) = None →
          first_name o = Some f ∧ customer_name o = Some (Text.py_strip f))
     ∧ (∀ l, get (u_firstName u) = None → get (u_lastName u) = Some l →
          last_name o = Some l ∧ customer_name o = Some (Text.py_strip l))).
Proof.
  intros Hum Hex.
  assert (Hrow : ∀ date_map cart p u,
    um !! get (c_userId cart) = Some u →
    let r := with_order_date date_map (product_row um cart p) in
    first_name r = Some (or_empty_str (get (u_firstName u)))
    ∧ last_name r = Some (or_empty_str (get (u_lastName u)))
    ∧ customer_name r
      = Some (Text.py_strip (or_empty_str (get (u_firstName u)) ++ " "
                             ++ or_empty_str (get (u_lastName u)))%string)).
  { intros dm cart p u Hk r. subst r.
    destruct (with_order_date_names dm (product_row um cart p)) as (-> & -> & ->).
    apply product_row_matched; [done|]. by eapply user_map_of_truthy. }
  split.
  - intros r u Hr Hk.
    apply extract_from_api_inv in Hex as (um' & carts & dm & Hum' & _ & ->).
    rewrite Hum in Hum'. injection Hum' as <-.
    apply list_elem_of_fmap in Hr as (r0 & -> & Hr0).
    apply elem_of_flatten in Hr0 as (cart & p & _ & _ & ->).
    rewrite with_order_date_user_id, product_row_user_id in Hk.
    destruct (Hrow dm cart p u Hk) as (Hf & Hl & Hn).
    by apply names_of_matched_row.
  - intros o u Ho Hk.
    destruct (clean_extracted_row _ _ _ _ _ Hex Ho) as (um' & cart & p & dm & Hum' & ->).
    rewrite Hum in Hum'. injection Hum' as <-.
    rewrite normalize_row_user_id, with_order_date_user_id, product_row_user_id in Hk.
    destruct (Hrow dm cart p u Hk) as (Hf & Hl & Hn).
    apply names_of_matched_row.
    + by rewrite normalize_row_first_name, Hf.
    + by rewrite normalize_row_last_name, Hl.
    + rewrite normalize_row_customer_name, Hn. cbn [fmap option_fmap option_map fill_null].
      unfold Text.py_strip. by rewrite strip_with_idem.
Qed.

(** A cart of user 12, who is named Jo and has no last name: the name
    cells of the normalized row are ["Jo"], the empty string and ["Jo"].
    A cart of user 11, who has an identifier and no name: the three name
    cells of the normalized row are empty strings. *)
Lemma absent_names_stay_empty_witness :
  (∃ df o,
     extract_from_api sample_today {| cp_carts := Val [sample_cart 1 12] |}
       {| up_users := Val [user_jo] |}
     = Ok df
     ∧ o ∈ clean_and_transform df
     ∧ first_name o = Some "Jo"%string
     ∧ last_name o = Some EmptyString
     ∧ customer_name o = Some "Jo"%string)
  ∧ (∃ df o,
       extract_from_api sample_today {| cp_carts := Val [sample_cart 1 11] |} sample_users
       = Ok df
       ∧ o ∈ clean_and_transform df
       ∧ first_name o = Some EmptyString
       ∧ last_name o = Some EmptyString
       ∧ customer_name o = Some EmptyString).
Proof.
  split.
  - eexists _, _. split; [vm_compute; reflexivity|]. split; [vm_compute; left|].
    edestruct (absent_names_stay_empty sample_today
                 {| cp_carts := Val [sample_cart 1 12] |} {| up_users := Val [user_jo] |})
      as [_ H]; [vm_compute; reflexivity|vm_compute; reflexivity|].
    match goal with
    | |- first_name ?o = _ ∧ _ =>
        destruct (H o user_jo) as (_ & Hl & _ & Hf & _);
          [vm_compute; left|vm_compute; reflexivity|]
    end.
    destruct (Hf "Jo"%string) as [Hfirst Hname]; [reflexivity|reflexivity|].
    split_and!; [exact Hfirst|by apply Hl|exact Hname].
  - eexists _, _. split; [vm_compute; reflexivity|]. split; [vm_compute; left|].
    edestruct (absent_names_stay_empty sample_today
                 {| cp_carts := Val [sample_cart 1 11] |} sample_users)
      as [_ H]; [vm_compute; reflexivity|vm_compute; reflexivity|].
    match goal with
    | |- first_name ?o = _ ∧ _ =>
        destruct (H o nameless_user) as (Hf & Hl & Hn & _);
          [vm_compute; left|vm_compute; reflexivity|]
    end.
    split_and!; [by apply Hf|by apply Hl|by apply Hn].
Defined.

(** C2, the input on which the flattener does not fail: a carts payload
    without the key ["carts"] gives the empty frame. *)
Lemma missing_carts_key_is_no_error :
  extract_from_api sample_today {| cp_carts := Absent |} sample_users = Ok []
  ∧ ¬ ∃ e, extract_from_api sample_today {| cp_carts := Absent |} sample_users = Err e.
Proof. split; [reflexivity|]. by intros [e He]. Qed.

(** C2, amended: when the users payload is usable, a carts payload without
    the key ["carts"] and one whose ["carts"] is the empty list both give
    the empty frame and no error; the flattener fails, with a Python
    [TypeError], when ["carts"] is there and is null. *)
Theorem carts_key_absent_or_empty today up um :
  user_map_of up = Ok um →
  extract_from_api today {| cp_carts := Absent |} up = Ok []
  ∧ extract_from_api today {| cp_carts := Val [] |} up = Ok []
  ∧ extract_from_api today {| cp_carts := Null |} up = Err TypeError.
Proof.
  unfold user_map_of, extract_from_api.
  destruct (py_iter (get_default (up_users up) [])) as [users|e]; [|done]. cbn.
  by intros ->.
Qed.

(** The three carts payloads next to the sample users. *)
Lemma carts_key_absent_or_empty_witness :
  extract_from_api sample_today {| cp_carts := Absent |} sample_users = Ok []
  ∧ extract_from_api sample_today {| cp_carts := Val [] |} sample_users = Ok []
  ∧ extract_from_api sample_today {| cp_carts := Null |} sample_users = Err TypeError.
Proof. by eapply carts_key_absent_or_empty. Defined.

(* ===================================================================== *)
(** * The order dates *)
(* ===================================================================== *)

Lemma mapM_int_of_cell (zs : list Z) : mapM int_of_cell (Some <$> zs) = Ok zs.
Proof. induction zs as [|z zs IH]; [done|]. cbn. by rewrite IH. Qed.

Lemma all_some_fmap (l : list (option Z)) :
  Forall is_Some l → ∃ zs, l = Some <$> zs.
Proof.
  induction 1 as [|c l [z ->] _ [zs ->]]; [by exists []|]. by exists (z :: zs).
Qed.

(** A list without duplicates that is in ascending order is in strictly
    ascending order. *)
Lemma StronglySorted_le_lt (l : list Z) :
  NoDup l → StronglySorted Z.le l → StronglySorted Z.lt l.
Proof.
  intros Hnd Hs. induction Hs as [|x l Hs IH Hx]; [constructor|].
  apply NoDup_cons in Hnd as [Hnin Hnd]. constructor; [by apply IH|].
  apply Forall_forall. intros y Hy.
  pose proof (proj1 (Forall_forall _ _) Hx y Hy) as Hle.
  assert (x ≠ y) as Hne by (by intros ->). lia.
Qed.

(** [sorted] on distinct identifiers none of which is [None]: the same
    identifiers in strictly ascending order. *)
Lemma py_sorted_spec (l : list (option Z)) :
  NoDup l → Forall is_Some l →
  ∃ ids, py_sorted l = Ok (Some <$> ids)
         ∧ NoDup ids
         ∧ StronglySorted Z.lt ids
         ∧ ∀ c, c ∈ ids ↔ Some c ∈ l.
Proof.
  intros Hnd [zs ->]%all_some_fmap.
  apply NoDup_fmap in Hnd; [|apply _].
  destruct zs as [|z [|z' zs]].
  - exists []. split; [done|]. split; [constructor|]. split; [constructor|].
    intros c. cbn. split; by intros ?%elem_of_nil.
  - exists [z]. split; [done|]. split; [apply NoDup_singleton|].
    split; [repeat constructor|]. intros c. cbn.
    rewrite !list_elem_of_singleton. split; [by intros ->|by intros [= ->]].
  - exists (merge_sort Z.le (z :: z' :: zs)).
    set (ws := z :: z' :: zs) in *. split; [|split; [|split]].
    + change (py_sorted (Some <$> ws))
        with (mapM int_of_cell (Some <$> ws) ≫= λ ids, Ok (Some <$> merge_sort Z.le ids)).
      by rewrite mapM_int_of_cell.
    + by rewrite merge_sort_Permutation.
    + apply StronglySorted_le_lt.
      * by rewrite merge_sort_Permutation.
      * apply StronglySorted_merge_sort; apply _.
    + intros c. rewrite merge_sort_Permutation. rewrite list_elem_of_fmap.
      split; [by eauto|]. by intros (? & [= <-] & ?).
Qed.

Lemma build_date_map_other today i ids m (c : option Z) :
  c ∉ ids → build_date_map today i ids m !! c = m !! c.
Proof.
  revert i m. induction ids as [|c0 ids IH]; intros i m Hc; [done|].
  apply not_elem_of_cons in Hc as [Hne Hc]. cbn.
  rewrite IH by done. by rewrite lookup_insert_ne.
Qed.

(** The identifier at index [j] of the sorted list gets the date [j mod
    30] days back, counted from the index [i] at which the loop starts. *)
Lemma build_date_map_lookup today i ids m j (c : option Z) :
  NoDup ids → ids !! j = Some c →
  build_date_map today i ids m !! c
  = Some (Date.isoformat (today - Z.of_nat (i + j) mod 30)).
Proof.
  revert i m j. induction ids as [|c0 ids IH]; intros i m j Hnd Hj; [done|].
  apply NoDup_cons in Hnd as [Hnin Hnd]. destruct j as [|j]; cbn in *.
  - injection Hj as ->. rewrite build_date_map_other by done.
    rewrite lookup_insert_eq. by rewrite Nat.add_0_r.
  - rewrite (IH (S i) _ j) by done. do 4 f_equal. lia.
Qed.

Lemma with_order_date_cart_id dm r : cart_id (with_order_date dm r) = cart_id r.
Proof. done. Qed.

Lemma with_order_date_order_date dm r :
  order_date (with_order_date dm r) = lookup_date dm (cart_id r).
Proof. done. Qed.

Lemma mapM_int_of_cell_None (l : list (option Z)) :
  None ∈ l → mapM int_of_cell l = Err TypeError.
Proof.
  induction l as [|[z|] l IH]; intros Hin.
  - by apply elem_of_nil in Hin.
  - apply elem_of_cons in Hin as [|Hin]; [done|]. cbn. by rewrite IH.
  - done.
Qed.

(** What [sorted] returned when it returned: the identifiers in strictly
    ascending order, each at its index; or the one [None] that it was
    given. *)
Lemma py_sorted_Ok (l sorted : list (option Z)) :
  NoDup l → py_sorted l = Ok sorted →
  ∃ ids, StronglySorted Z.lt ids
         ∧ (∀ c, c ∈ ids ↔ Some c ∈ l)
         ∧ (∀ i c, ids !! i = Some c → sorted !! i = Some (Some c))
         ∧ NoDup sorted.
Proof.
  intros Hnd Hs. destruct (decide (None ∈ l)) as [Hnone|Hsome].
  - destruct l as [|a [|b l]].
    + by apply elem_of_nil in Hnone.
    + apply list_elem_of_singleton in Hnone as <-. injection Hs as <-.
      exists []. split; [constructor|]. split; [|split; [done|by apply NoDup_singleton]].
      intros c. split; [by intros ?%elem_of_nil|].
      by intros [=]%list_elem_of_singleton.
    + set (l' := a :: b :: l) in *.
      change (py_sorted l')
        with (mapM int_of_cell l' ≫= λ zs, Ok (Some <$> merge_sort Z.le zs)) in Hs.
      by rewrite mapM_int_of_cell_None in Hs.
  - destruct (py_sorted_spec l Hnd) as (ids & E & Hnd' & Hsorted & Hmem).
    { apply Forall_forall. intros [c|] Hc; [by eexists|done]. }
    rewrite E in Hs. injection Hs as <-.
    exists ids. split; [done|]. split; [done|]. split.
    + intros i c Hi. by rewrite list_lookup_fmap, Hi.
    + by apply NoDup_fmap; [apply _|].
Qed.

(** What a successful run of the flattener went through, with the list
    that [sorted] returned. *)
Lemma extract_from_api_inv_sorted today cp up df :
  extract_from_api today cp up = Ok df →
  ∃ um carts sorted,
    py_sorted (unique_carts (flatten um carts)) = Ok sorted
    ∧ df = with_order_date (build_date_map today 0 sorted ∅) <$> flatten um carts.
Proof.
  unfold extract_from_api.
  destruct (py_iter (get_default (up_users up) [])) as [users|e]; [|done]. cbn.
  destruct (build_user_map ∅ users) as [um|e]; [|done]. cbn.
  destruct (get_default (cp_carts cp) []) as [carts|]; [|done]. cbn.
  destruct (flatten um carts) as [|r rows] eqn:Hrows.
  - intros [= <-]. exists um, carts, []. by rewrite Hrows.
  - destruct (py_sorted _) as [sorted|e] eqn:Hs; [|done]. cbn.
    intros ->%typed_frame_inv. exists um, carts, sorted. by rewrite Hrows.
Qed.

(** C5, the input on which no order date is assigned: of three carts
    with a product each, the second has no identifier; [sorted] compares
    [None] with a number, and the flattener returns no frame. *)
Lemma order_dates_need_cart_ids :
  let cp := {| cp_carts := Val [sample_cart 5 10; cart_without_id 10; sample_cart 3 10] |} in
  extract_from_api sample_today cp sample_users = Err TypeError
  ∧ ¬ ∃ df, extract_from_api sample_today cp sample_users = Ok df.
Proof.
  intros cp.
  assert (E : extract_from_api sample_today cp sample_users = Err TypeError)
    by (vm_compute; reflexivity).
  split; [done|]. intros [df Hdf]. by rewrite E in Hdf.
Qed.

(** C5, amended: whenever the flattener returns a frame, with [ids] the
    distinct cart identifiers of the frame in strictly ascending order,
    each row of the cart at index [i] of [ids] has [order_date] equal to
    the ISO text of [today - (i mod 30)] days; the frame is a function of
    the payloads and of [today]. *)
Theorem order_date_by_rank today cp up df :
  extract_from_api today cp up = Ok df →
  ∃ ids,
    StronglySorted Z.lt ids
    ∧ (∀ c, c ∈ ids ↔ ∃ r, r ∈ df ∧ cart_id r = Some c)
    ∧ (∀ r c, r ∈ df → cart_id r = Some c →
         ∃ i, ids !! i = Some c
              ∧ order_date r
                = Some (Date.isoformat (today - (Z.of_nat i mod 30)))).
Proof.
  intros (um & carts & sorted & Hs & ->)%extract_from_api_inv_sorted.
  set (rows := flatten um carts) in *.
  set (dm := build_date_map today 0 sorted ∅).
  destruct (py_sorted_Ok _ _ (NoDup_remove_dups _) Hs)
    as (ids & Hsorted & Hmem & Hidx & Hnd).
  assert (Hcid : ∀ c, c ∈ ids ↔ ∃ r, r ∈ rows ∧ cart_id r = Some c).
  { intros c. rewrite Hmem. unfold unique_carts.
    rewrite elem_of_remove_dups, list_elem_of_fmap. split.
    - intros (r & Hc & Hr). eauto.
    - intros (r & Hr & Hc). eauto. }
  exists ids. split; [done|]. split.
  - intros c. rewrite Hcid. split.
    + intros (r & Hr & Hc). exists (with_order_date dm r). split; [|done].
      apply list_elem_of_fmap. eauto.
    + intros (r' & (r & -> & Hr)%list_elem_of_fmap & Hc). eauto.
  - intros r' c (r & -> & Hr)%list_elem_of_fmap Hc.
    rewrite with_order_date_cart_id in Hc.
    assert (c ∈ ids) as [i Hi]%list_elem_of_lookup by (apply Hcid; eauto).
    exists i. split; [done|].
    rewrite with_order_date_order_date, Hc. cbn. unfold dm.
    by rewrite (build_date_map_lookup today 0 _ _ i (Some c) Hnd (Hidx _ _ Hi)).
Qed.

(** The carts 5, 1 and 3 on 2026-11-03: cart 1 is dated today, cart 3
    one day back and cart 5 two days back. *)
Lemma order_date_by_rank_witness :
  let cp := {| cp_carts := Val [sample_cart 5 10; sample_cart 1 10; sample_cart 3 10] |} in
  ∃ df,
    extract_from_api sample_today cp sample_users = Ok df
    ∧ (λ r, (cart_id r, order_date r)) <$> df
      = [(Some 5, Some "2026-11-01"%string);
         (Some 1, Some "2026-11-03"%string);
         (Some 3, Some "2026-11-02"%string)]
    ∧ ∃ ids,
        StronglySorted Z.lt ids
        ∧ (∀ c, c ∈ ids ↔ ∃ r, r ∈ df ∧ cart_id r = Some c)
        ∧ (∀ r c, r ∈ df → cart_id r = Some c →
             ∃ i, ids !! i = Some c
                  ∧ order_date r
                    = Some (Date.isoformat (sample_today - (Z.of_nat i mod 30)))).
Proof.
  intros cp. eexists. split; [vm_compute; reflexivity|].
  split; [vm_compute; reflexivity|].
  apply (order_date_by_rank sample_today cp sample_users).
  vm_compute. reflexivity.
Defined.

(** With two carts of which one has no identifier, [sorted] compares
    [None] with a number and the flattener fails. *)
Example cart_without_id_fails :
  extract_from_api sample_today
    {| cp_carts := Val [sample_cart 5 10; cart_without_id 10] |} sample_users
  = Err TypeError.
Proof. vm_compute. reflexivity. Qed.

(** The example of the specification: one cart of one product, with its
    user; the title is cleaned, the total is price times quantity since the
    line total is zero, and the missing customer fields are imputed. *)
Example normalized_sample_row :
  (λ df, (λ o, (product_title o, total_amount o, customer_name o, email o, city o))
         <$> clean_and_transform df)
  <$> extract_from_api sample_today {| cp_carts := Val [sample_cart 1 10] |} sample_users
  = Ok [(Some "shirt"%string, Some (F64.of_Z 40), Some "Jo Doe"%string,
         Some "No Data"%string, Some "No Data"%string)].
Proof. vm_compute. reflexivity. Qed.

(* ===================================================================== *)
(** * Grouping *)
(* ===================================================================== *)

Section AggregateFacts.
Context {R K A : Type} `{EqDecision K}.
Variable key : R → K.
Variable init : A.
Variable step : A → R → A.

Lemma find_group_update r k (gs : list (K * A)) :
  find_group k (update_group key init step r gs)
  = if decide (key r = k)
    then Some (step (default init (find_group k gs)) r)
    else find_group k gs.
Proof.
  induction gs as [|[k' a] gs IH]; cbn.
  - destruct (decide (k = key r)) as [->|Hne].
    + by rewrite decide_True.
    + by rewrite decide_False.
  - destruct (decide (key r = k')) as [E|Hne]; cbn.
    + destruct (decide (k = k')) as [->|Hne'].
      * by rewrite decide_True.
      * rewrite decide_False; [done|congruence].
    + destruct (decide (k = k')) as [->|Hne'].
      * by rewrite decide_False.
      * apply IH.
Qed.

Lemma update_group_keys r (gs : list (K * A)) :
  (update_group key init step r gs).*1
  = if decide (key r ∈ gs.*1) then gs.*1 else gs.*1 ++ [key r].
Proof.
  induction gs as [|[k' a] gs IH]; cbn.
  - rewrite decide_False; [done|]. apply not_elem_of_nil.
  - destruct (decide (key r = k')) as [E|Hne]; cbn.
    + rewrite decide_True; [done|]. rewrite E. left.
    + rewrite IH. destruct (decide (key r ∈ gs.*1)) as [Hin|Hnin].
      * rewrite decide_True; [done|]. by right.
      * rewrite decide_False; [done|]. by intros [?|?]%elem_of_cons.
Qed.

Lemma group_by_snoc rows r :
  group_by key init step (rows ++ [r])
  = update_group key init step r (group_by key init step rows).
Proof. unfold group_by. by rewrite foldl_snoc. Qed.

(** No key has two groups. *)
Lemma group_by_keys_NoDup rows : NoDup (group_by key init step rows).*1.
Proof.
  induction rows as [|r rows IH] using rev_ind; [constructor|].
  rewrite group_by_snoc, update_group_keys.
  destruct (decide (key r ∈ _)) as [Hin|Hnin]; [done|].
  apply NoDup_app. split; [done|]. split; [|apply NoDup_singleton].
  intros k Hk ->%list_elem_of_singleton. done.
Qed.

(** The accumulator of a key is the fold of [step] over the rows of that
    key, in the order of the rows; a key without rows has no group. *)
Lemma find_group_group_by rows k :
  find_group k (group_by key init step rows)
  = match filter (λ r, key r = k) rows with
    | [] => None
    | g => Some (foldl step init g)
    end.
Proof.
  induction rows as [|r rows IH] using rev_ind; [done|].
  rewrite group_by_snoc, find_group_update, IH, filter_app.
  rewrite (filter_cons _ r), filter_nil.
  destruct (decide (key r = k)) as [E|Hne].
  - destruct (filter _ rows) as [|r' g]; [done|].
    cbn [default id]. by rewrite <- (foldl_snoc step init (r' :: g) r).
  - by rewrite app_nil_r.
Qed.

Lemma elem_of_groups (gs : list (K * A)) k a :
  NoDup gs.*1 → (k, a) ∈ gs ↔ find_group k gs = Some a.
Proof.
  induction gs as [|[k' a'] gs IH]; cbn; intros Hnd.
  - split; [by intros ?%elem_of_nil|done].
  - apply NoDup_cons in Hnd as [Hnin Hnd].
    rewrite elem_of_cons, (IH Hnd).
    destruct (decide (k = k')) as [->|Hne].
    + split.
      * intros [[= ->]|Hf]; [done|].
        destruct Hnin. apply list_elem_of_fmap. exists (k', a).
        split; [done|]. by apply IH.
      * intros [= ->]. by left.
    + split; [|by right]. intros [[= -> _]|Hf]; done.
Qed.

(** The groups of [group_by]: one for every key that has a row, with the
    fold of [step] over the rows of the key. *)
Lemma elem_of_group_by rows k a :
  (k, a) ∈ group_by key init step rows
  ↔ filter (λ r, key r = k) rows ≠ []
    ∧ a = foldl step init (filter (λ r, key r = k) rows).
Proof.
  rewrite elem_of_groups by apply group_by_keys_NoDup.
  rewrite find_group_group_by.
  destruct (filter _ rows) as [|r g]; [by split; [|intros [? _]]|].
  split; [by intros [= <-]|by intros [_ ->]].
Qed.

End AggregateFacts.

(* ===================================================================== *)
(** * Sums, distinct counts and orders *)
(* ===================================================================== *)

Lemma foldl_sum_step_Some a cells :
  foldl sum_step (Some a) cells = Some (foldl F64.add a (omap id cells)).
Proof.
  revert a. induction cells as [|[v|] cells IH]; intros a; [done| |]; cbn.
  - apply IH.
  - apply IH.
Qed.

Lemma foldl_sum_step_None cells : foldl sum_step None cells = sql_sum cells.
Proof.
  induction cells as [|[v|] cells IH]; [done| |].
  - cbn. by rewrite foldl_sum_step_Some.
  - cbn. by rewrite IH.
Qed.


Lemma foldl_distinct_step (seen : gset Z) cells :
  foldl distinct_step seen cells = list_to_set (omap id cells) ∪ seen.
Proof.
  revert seen. induction cells as [|[v|] cells IH]; intros seen; cbn.
  - by rewrite (left_id_L ∅ (∪)).
  - rewrite IH, (assoc_L (∪)).
    by rewrite (comm_L (∪) (list_to_set (omap id cells)) {[v]}).
  - apply IH.
Qed.

Lemma size_list_to_set_remove_dups (l : list Z) :
  size (list_to_set l : gset Z) = length (remove_dups l).
Proof.
  rewrite <- (size_list_to_set (C:=gset Z) (remove_dups l)) by apply NoDup_remove_dups.
  f_equal. apply set_eq. intros x.
  by rewrite !elem_of_list_to_set, elem_of_remove_dups.
Qed.

(** The accumulators of the customer summary over a group: the distinct
    cart identifiers and the sum of the amounts. *)
Lemma customer_accumulators (rows : list Sales.t) seen acc :
  foldl (λ a r, (distinct_step a.1 (Sales.cart_id r),
                 sum_step a.2 (Sales.total_amount r))) (seen, acc) rows
  = (foldl distinct_step seen (Sales.cart_id <$> rows),
     foldl sum_step acc (Sales.total_amount <$> rows)).
Proof.
  revert seen acc. induction rows as [|r rows IH]; intros seen acc; [done|].
  cbn. apply IH.
Qed.

Lemma SFcompare_antisym x y : SFcompare y x = CompOpp <$> SFcompare x y.
Proof.
  destruct x as [[]|[]| |[] mx ex], y as [[]|[]| |[] my ey]; cbn; try done.
  - rewrite (Z.compare_antisym ex ey).
    destruct (ex ?= ey); cbn; try done.
    by rewrite (Pos.compare_cont_antisym mx my Eq).
  - rewrite (Z.compare_antisym ex ey).
    destruct (ex ?= ey); cbn; try done.
    by rewrite (Pos.compare_cont_antisym mx my Eq).
Qed.

(** The order of doubles in [ORDER BY] compares any two values. *)
Lemma F64_leb_total x y : F64.leb x y = true ∨ F64.leb y x = true.
Proof.
  assert (Hcmp : F64.is_nan x = false → F64.is_nan y = false →
                 SFleb x y = true ∨ SFleb y x = true).
  { intros Hx Hy. unfold SFleb. rewrite (SFcompare_antisym x y).
    destruct (SFcompare x y) as [[]|] eqn:E; cbn; auto.
    destruct x, y; cbn in *; try done; repeat case_match; done. }
  destruct x, y; cbn; auto.
Qed.

Lemma desc_nulls_last_total a b :
  desc_nulls_last a b = true ∨ desc_nulls_last b a = true.
Proof. destruct a, b; cbn; auto using F64_leb_total. Qed.

Lemma asc_nulls_last_total a b :
  asc_nulls_last a b = true ∨ asc_nulls_last b a = true.
Proof. destruct a, b; cbn; auto. rewrite !Z.leb_le. lia. Qed.

Lemma customer_before_total : Total CustomerSummary.before.
Proof. intros a b. apply desc_nulls_last_total. Qed.

Lemma daily_before_total : Total DailySales.before.
Proof. intros a b. apply asc_nulls_last_total. Qed.

(* ===================================================================== *)
(** * The aggregator *)
(* ===================================================================== *)

(** The keys of the groups are the distinct keys of the rows. *)
Lemma group_by_keys_Permutation {R K A} `{EqDecision K}
    (key : R → K) (init : A) (step : A → R → A) (rows : list R) :
  (group_by key init step rows).*1 ≡ₚ remove_dups (key <$> rows).
Proof.
  apply NoDup_Permutation;
    [apply group_by_keys_NoDup|apply NoDup_remove_dups|].
  intros k. rewrite elem_of_remove_dups, !list_elem_of_fmap. split.
  - intros ([k' a] & -> & Hg). apply elem_of_group_by in Hg as [Hne _].
    destruct (filter _ rows) as [|r g] eqn:E; [done|].
    assert (r ∈ filter (λ r, key r = k') rows) as [Hk Hr]%list_elem_of_filter
      by (rewrite E; left).
    eauto.
  - intros (r & -> & Hr).
    exists (key r, foldl step init (filter (λ r', key r' = key r) rows)).
    split; [done|]. apply elem_of_group_by. split; [|done].
    intros E. assert (r ∈ filter (λ r', key r' = key r) rows) as Hin
      by by apply list_elem_of_filter.
    rewrite E in Hin. by apply elem_of_nil in Hin.
Qed.


Lemma elem_of_register_sales_with strptime df s :
  s ∈ register_sales_with strptime df ↔
  ∃ r, r ∈ df
       ∧ s = {| Sales.product_title := product_title r;
                Sales.total_amount := nan_to_null (total_amount r);
                Sales.user_id := pandas_int64 (has_null (user_id <$> df)) (user_id r);
                Sales.customer_name := customer_name r;
                Sales.cart_id := pandas_int64 (has_null (cart_id <$> df)) (cart_id r);
                Sales.order_date := order_date r ≫= strptime |}.
Proof.
  unfold register_sales_with. rewrite list_elem_of_fmap. split.
  - intros (r & -> & Hr). eauto.
  - intros (r & Hr & ->). eauto.
Qed.

Lemma elem_of_register_sales df s :
  s ∈ register_sales df ↔
  ∃ r, r ∈ df
       ∧ s = {| Sales.product_title := product_title r;
                Sales.total_amount := nan_to_null (total_amount r);
                Sales.user_id := pandas_int64 (has_null (user_id <$> df)) (user_id r);
                Sales.customer_name := customer_name r;
                Sales.cart_id := pandas_int64 (has_null (cart_id <$> df)) (cart_id r);
                Sales.order_date := parse_order_date (order_date r) |}.
Proof. apply elem_of_register_sales_with. Qed.




Lemma elem_of_customer_summary (sales : list Sales.t) o :
  o ∈ customer_summary sales ↔
  ∃ uid name,
    let group :=
      filter (λ r, (Sales.user_id r, Sales.customer_name r) = (uid, name)) sales in
    group ≠ []
    ∧ o = CustomerSummary.mk uid (display_name name)
            (length (remove_dups (omap Sales.cart_id group)))
            (sql_sum (Sales.total_amount <$> group)).
Proof.
  unfold customer_summary, customer_groups.
  rewrite merge_sort_Permutation, list_elem_of_fmap.
  assert (Hacc : ∀ group : list Sales.t,
    let acc := foldl (λ a r, (distinct_step a.1 (Sales.cart_id r),
                              sum_step a.2 (Sales.total_amount r))) (∅, None) group in
    size acc.1 = length (remove_dups (omap Sales.cart_id group))
    ∧ acc.2 = sql_sum (Sales.total_amount <$> group)).
  { intros group acc. subst acc. rewrite customer_accumulators. cbn [fst snd].
    rewrite foldl_sum_step_None, foldl_distinct_step, (right_id_L ∅ (∪)).
    rewrite size_list_to_set_remove_dups. split; [|done].
    do 2 f_equal. induction group as [|r g IH]; [done|].
    cbn. destruct (Sales.cart_id r); cbn; by rewrite IH. }
  split.
  - intros ([[uid name] acc] & -> & Hg). exists uid, name. cbn zeta.
    apply elem_of_group_by in Hg as [Hne ->]. split; [done|].
    cbn [fst snd]. destruct (Hacc (filter (λ r, (Sales.user_id r, Sales.customer_name r)
                                               = (uid, name)) sales)) as [-> ->].
    done.
  - intros (uid & name & Hne & ->).
    eexists ((uid, name), _). split; [|apply elem_of_group_by; split; [exact Hne|done]].
    cbn [fst snd]. destruct (Hacc (filter (λ r, (Sales.user_id r, Sales.customer_name r)
                                               = (uid, name)) sales)) as [-> ->].
    done.
Qed.

(** C7: the query does not group by the name that it displays. The two
    rows of user 10 are in two carts; after the normalizer one has the
    empty name and one the name ["No Data"]. The summary has two rows for
    (10, ["No Data"]), each with one order, where the rows of user 10 whose
    name is displayed as ["No Data"] are in two carts: [total_orders] is
    not the number of distinct carts of the displayed group. *)
Lemma customer_summary_splits_displayed_name :
  let sales := register_sales (clean_and_transform split_customer_frame) in
  let table := customer_summary_csv (write_analytics (clean_and_transform split_customer_frame)) in
  table = [CustomerSummary.mk (Some 10) "No Data" 1 (Some (F64.of_Z 40));
           CustomerSummary.mk (Some 10) "No Data" 1 (Some (F64.of_Z 40))]
  ∧ ¬ (∀ o, o ∈ table →
         CustomerSummary.total_orders o
         = length (remove_dups (omap Sales.cart_id
             (filter (λ r, Sales.user_id r = CustomerSummary.customer_id o
                           ∧ display_name (Sales.customer_name r)
                             = CustomerSummary.customer_name o) sales)))).
Proof.
  intros sales table. split; [vm_compute; reflexivity|].
  intros H.
  specialize (H (CustomerSummary.mk (Some 10) "No Data" 1 (Some (F64.of_Z 40)))).
  assert (Hin : CustomerSummary.mk (Some 10) "No Data" 1 (Some (F64.of_Z 40)) ∈ table)
    by (vm_compute; left).
  apply H in Hin. vm_compute in Hin. discriminate Hin.
Qed.

(** What the customer summary holds: one row for every pair of a
    [user_id] and a [customer_name] as stored that has a row in [sales];
    the row shows the [user_id] as [customer_id], the name with ["No Data"]
    in place of a null or empty name, the number of distinct cart
    identifiers of the rows of the pair as [total_orders] and the sum of
    their [total_amount] as [total_spent]; the table is in descending order
    of [total_spent], NULLs last. *)
Lemma customer_summary_per_group (df : DataFrame) :
  let sales := register_sales df in
  let table := customer_summary_csv (write_analytics df) in
  Sorted CustomerSummary.before table
  ∧ (∀ o, o ∈ table ↔
       ∃ uid name,
         let group :=
           filter (λ r, (Sales.user_id r, Sales.customer_name r) = (uid, name)) sales in
         group ≠ []
         ∧ o = CustomerSummary.mk uid (display_name name)
                 (length (remove_dups (omap Sales.cart_id group)))
                 (sql_sum (Sales.total_amount <$> group)))
  ∧ length table
    = length (remove_dups ((λ r, (Sales.user_id r, Sales.customer_name r)) <$> sales)).
Proof.
  intros sales table. subst table. unfold write_analytics.
  cbn [write_analytics_with customer_summary_csv]. fold (register_sales df). fold sales.
  split; [|split].
  - pose proof customer_before_total. apply Sorted_merge_sort. apply _.
  - apply elem_of_customer_summary.
  - unfold customer_summary, customer_groups.
    rewrite merge_sort_Permutation, length_fmap.
    rewrite <- (length_fmap fst).
    by rewrite group_by_keys_Permutation.
Qed.

(** One cart of three products is one order: 40 + 5 + 21 = 66. *)
Example one_cart_is_one_order :
  customer_summary_csv (write_analytics (clean_and_transform three_products_frame))
  = [CustomerSummary.mk (Some 10) "Jo Doe" 1 (Some (F64.of_Z 66))].
Proof. vm_compute. reflexivity. Qed.

(* ===================================================================== *)
(** * Further properties of the flattener *)
(* ===================================================================== *)

Lemma product_row_product_id um cart p :
  product_id (product_row um cart p) = get (p_id p).
Proof.
  unfold product_row. destruct (um !! get (c_userId cart)) as [u|]; [|done].
  by destruct (user_truthy u).
Qed.

Lemma flatten_ids um carts :
  (λ r, (cart_id r, product_id r)) <$> flatten um carts
  = carts ≫= (λ c, (λ p, (get (c_id c), get (p_id p))) <$> products_of c).
Proof.
  unfold flatten. induction carts as [|c carts IH]; [done|].
  rewrite !bind_cons, fmap_app, IH. f_equal.
  unfold cart_rows, products_of. rewrite <- list_fmap_compose.
  apply list_fmap_ext. intros i p _. cbn.
  by rewrite product_row_cart_id, product_row_product_id.
Qed.

(** The frame has one row for each product of each cart, in the order of
    the carts and, within a cart, of its products; a cart whose product
    list is absent, null or empty gives no row. *)
Theorem rows_in_cart_and_product_order today cp up df carts :
  extract_from_api today cp up = Ok df →
  get_default (cp_carts cp) [] = Some carts →
  (λ r, (cart_id r, product_id r)) <$> df
  = carts ≫= (λ c, (λ p, (get (c_id c), get (p_id p))) <$> products_of c)
  ∧ length df = sum_list_with (λ c, length (products_of c)) carts.
Proof.
  intros (um & carts' & dm & _ & Hc & ->)%extract_from_api_inv Hcarts.
  rewrite Hcarts in Hc. injection Hc as <-.
  assert (Hids : (λ r, (cart_id r, product_id r)) <$> (with_order_date dm <$> flatten um carts)
                 = carts ≫= (λ c, (λ p, (get (c_id c), get (p_id p))) <$> products_of c)).
  { rewrite <- list_fmap_compose, <- (flatten_ids um). by apply list_fmap_ext. }
  split; [done|].
  rewrite <- (length_fmap (λ r, (cart_id r, product_id r))), Hids.
  clear. induction carts as [|c carts IH]; [done|].
  rewrite bind_cons, length_app, length_fmap, IH. done.
Qed.

(** Three carts, the second without products: two rows. *)
Lemma rows_in_cart_and_product_order_witness :
  ∃ df, extract_from_api sample_today
          {| cp_carts := Val [sample_cart 5 10; cart_without_products 7 10; sample_cart 3 10] |}
          sample_users = Ok df
        ∧ (λ r, (cart_id r, product_id r)) <$> df
          = [(Some 5, Some 100); (Some 3, Some 100)]
        ∧ length df = 2%nat.
Proof.
  eexists. split; [vm_compute; reflexivity|].
  edestruct (rows_in_cart_and_product_order sample_today
            {| cp_carts := Val [sample_cart 5 10; cart_without_products 7 10; sample_cart 3 10] |}
            sample_users) as [Hids Hlen]; [vm_compute; reflexivity|reflexivity|].
  split; [exact Hids|exact Hlen].
Defined.

Lemma build_user_map_missing_id (users : list User) (m : gmap (option Z) User) :
  Exists (λ u, u_id u = Absent) users → build_user_map m users = Err KeyError.
Proof.
  intros Hex. revert m. induction Hex as [u users Hu|u users Hex IH]; intros m; cbn.
  - by rewrite Hu.
  - destruct (u_id u); cbn; [done|apply IH|apply IH].
Qed.

(** The users payload is read first: a user without the key ["id"] makes
    the flattener fail with [KeyError], and a null ["users"] with
    [TypeError], whatever the carts payload holds. *)
Theorem users_payload_errors today cp up :
  (∀ users, up_users up = Val users → Exists (λ u, u_id u = Absent) users →
            extract_from_api today cp up = Err KeyError)
  ∧ (up_users up = Null → extract_from_api today cp up = Err TypeError).
Proof.
  split.
  - intros users Hu Hex. unfold extract_from_api. rewrite Hu. cbn.
    by rewrite (build_user_map_missing_id users ∅ Hex).
  - intros Hu. unfold extract_from_api. by rewrite Hu.
Qed.

(** A users payload whose second user has no identifier, and a null one,
    next to a carts payload that is null as well. *)
Lemma users_payload_errors_witness :
  extract_from_api sample_today {| cp_carts := Null |}
    {| up_users := Val [sample_user; user_without_id] |} = Err KeyError
  ∧ extract_from_api sample_today {| cp_carts := Null |} {| up_users := Null |}
    = Err TypeError.
Proof.
  split.
  - eapply (proj1 (users_payload_errors sample_today {| cp_carts := Null |}
                     {| up_users := Val [sample_user; user_without_id] |}));
      [reflexivity|]. right. by left.
  - by apply (proj2 (users_payload_errors sample_today {| cp_carts := Null |}
                       {| up_users := Null |})).
Defined.

Lemma has_id_item k k0 u : item (u_id u) = Ok k0 → has_id k u ↔ k0 = k.
Proof.
  unfold has_id. destruct (u_id u) as [| |a]; cbn; [done| |].
  - intros [= <-]. by destruct k.
  - intros [= <-]. destruct k as [b|]; [|done].
    rewrite bool_decide_spec. split; [by intros ->|by intros [= ->]].
Qed.

(** The entry of the lookup table under a key is the last user of the
    list that is stored under the key. *)
Lemma build_user_map_lookup (users : list User) (m um : gmap (option Z) User)
    (k : option Z) :
  build_user_map m users = Ok um →
  um !! k = match last (filter (λ u, has_id k u) users) with
            | Some u => Some u
            | None => m !! k
            end.
Proof.
  revert m. induction users as [|u users IH]; intros m Hb.
  - by injection Hb as <-.
  - cbn in Hb. destruct (item (u_id u)) as [k0|e] eqn:E; [|done]. cbn in Hb.
    rewrite (IH _ Hb), (filter_cons _ u).
    pose proof (has_id_item k k0 u E) as Hk.
    destruct (decide (has_id k u)) as [Hid|Hid].
    + rewrite last_cons. destruct (last (filter _ users)); [done|].
      apply Hk in Hid as ->. by rewrite lookup_insert_eq.
    + destruct (last (filter _ users)); [done|].
      rewrite lookup_insert_ne; [done|]. intros ->. by apply Hid, Hk.
Qed.

Lemma product_row_matched_contact um cart p u :
  um !! get (c_userId cart) = Some u → user_truthy u = true →
  email (product_row um cart p) = get (u_email u)
  ∧ gender (product_row um cart p) = get (u_gender u)
  ∧ age (product_row um cart p) = AgeInt (get (u_age u)).
Proof. unfold product_row. by intros -> ->. Qed.

Lemma with_order_date_contact dm r :
  email (with_order_date dm r) = email r
  ∧ gender (with_order_date dm r) = gender r
  ∧ age (with_order_date dm r) = age r
  ∧ city (with_order_date dm r) = city r.
Proof. done. Qed.

(** When several users carry the same identifier, the rows of a cart of
    that identifier take their customer cells from the last of them in the
    users payload. *)
Theorem duplicate_user_ids_last_wins today cp up df r u :
  extract_from_api today cp up = Ok df →
  r ∈ df →
  last (filter (λ u, has_id (user_id r) u) (users_of up)) = Some u →
  first_name r = Some (or_empty_str (get (u_firstName u)))
  ∧ last_name r = Some (or_empty_str (get (u_lastName u)))
  ∧ email r = get (u_email u)
  ∧ gender r = get (u_gender u)
  ∧ age r = AgeInt (get (u_age u)).
Proof.
  intros (um & carts & dm & Hum & _ & ->)%extract_from_api_inv Hr Hlast.
  apply list_elem_of_fmap in Hr as (r0 & -> & Hr0).
  apply elem_of_flatten in Hr0 as (cart & p & _ & _ & ->).
  rewrite with_order_date_user_id, product_row_user_id in Hlast.
  assert (Hk : um !! get (c_userId cart) = Some u).
  { rewrite (build_user_map_lookup _ ∅ um _ (user_map_of_users _ _ Hum)).
    by rewrite Hlast. }
  pose proof (user_map_of_truthy _ _ _ _ Hum Hk) as Ht.
  destruct (with_order_date_names dm (product_row um cart p)) as (-> & -> & _).
  destruct (with_order_date_contact dm (product_row um cart p)) as (-> & -> & -> & _).
  destruct (product_row_matched um cart p u Hk Ht) as (-> & -> & _).
  by destruct (product_row_matched_contact um cart p u Hk Ht) as (-> & -> & ->).
Qed.

(** Two users with the identifier 10: the cart of user 10 is named after
    the second. *)
Lemma duplicate_user_ids_last_wins_witness :
  ∃ df r,
    extract_from_api sample_today {| cp_carts := Val [sample_cart 1 10] |}
      {| up_users := Val [sample_user; second_user_10] |} = Ok df
    ∧ r ∈ df
    ∧ first_name r = Some "Ann"%string.
Proof.
  eexists _, _. split; [vm_compute; reflexivity|]. split; [vm_compute; left|].
  edestruct (duplicate_user_ids_last_wins sample_today
               {| cp_carts := Val [sample_cart 1 10] |}
               {| up_users := Val [sample_user; second_user_10] |})
    as (Hf & _);
    [vm_compute; reflexivity|vm_compute; left|vm_compute; reflexivity|].
  exact Hf.
Defined.

(** The customer cells of a row are a function of the user identifier of
    its cart, and its order date is a function of the cart identifier. *)
Lemma product_row_same_user um cart p cart' p' :
  get (c_userId cart) = get (c_userId cart') →
  first_name (product_row um cart p) = first_name (product_row um cart' p')
  ∧ last_name (product_row um cart p) = last_name (product_row um cart' p')
  ∧ customer_name (product_row um cart p) = customer_name (product_row um cart' p')
  ∧ email (product_row um cart p) = email (product_row um cart' p')
  ∧ city (product_row um cart p) = city (product_row um cart' p')
  ∧ age (product_row um cart p) = age (product_row um cart' p')
  ∧ gender (product_row um cart p) = gender (product_row um cart' p').
Proof.
  unfold product_row. intros <-.
  destruct (um !! get (c_userId cart)) as [u|]; [|done].
  by destruct (user_truthy u).
Qed.

Lemma with_order_date_customer dm r :
  first_name (with_order_date dm r) = first_name r
  ∧ last_name (with_order_date dm r) = last_name r
  ∧ customer_name (with_order_date dm r) = customer_name r
  ∧ email (with_order_date dm r) = email r
  ∧ city (with_order_date dm r) = city r
  ∧ age (with_order_date dm r) = age r
  ∧ gender (with_order_date dm r) = gender r.
Proof. done. Qed.

(** In a frame of the flattener, two rows with the same [user_id] have
    the same customer cells, and two rows with the same [cart_id] have the
    same order date. *)
Theorem customer_cells_follow_user_id today cp up df r1 r2 :
  extract_from_api today cp up = Ok df →
  r1 ∈ df → r2 ∈ df →
  (user_id r1 = user_id r2 →
     first_name r1 = first_name r2 ∧ last_name r1 = last_name r2
     ∧ customer_name r1 = customer_name r2 ∧ email r1 = email r2
     ∧ city r1 = city r2 ∧ age r1 = age r2 ∧ gender r1 = gender r2)
  ∧ (cart_id r1 = cart_id r2 → order_date r1 = order_date r2).
Proof.
  intros (um & carts & dm & _ & _ & ->)%extract_from_api_inv Hr1 Hr2.
  apply list_elem_of_fmap in Hr1 as (r1' & -> & Hr1).
  apply list_elem_of_fmap in Hr2 as (r2' & -> & Hr2).
  apply elem_of_flatten in Hr1 as (c1 & p1 & _ & _ & ->).
  apply elem_of_flatten in Hr2 as (c2 & p2 & _ & _ & ->).
  split.
  - rewrite !with_order_date_user_id, !product_row_user_id. intros Hu.
    destruct (with_order_date_customer dm (product_row um c1 p1))
      as (-> & -> & -> & -> & -> & -> & ->).
    destruct (with_order_date_customer dm (product_row um c2 p2))
      as (-> & -> & -> & -> & -> & -> & ->).
    by apply product_row_same_user.
  - rewrite !with_order_date_cart_id, !with_order_date_order_date. by intros ->.
Qed.

(** Two carts of user 10: their rows have the same customer name. *)
Lemma customer_cells_follow_user_id_witness :
  ∃ df r1 r2,
    extract_from_api sample_today
      {| cp_carts := Val [sample_cart 1 10; sample_cart 2 10] |} sample_users = Ok df
    ∧ df = [r1; r2]
    ∧ customer_name r1 = customer_name r2.
Proof.
  eexists _, _, _. split; [vm_compute; reflexivity|]. split; [reflexivity|].
  edestruct (customer_cells_follow_user_id sample_today
               {| cp_carts := Val [sample_cart 1 10; sample_cart 2 10] |} sample_users)
    as [Hu _]; [vm_compute; reflexivity|left|right; left|].
  by apply Hu.
Defined.

Lemma mapM_int_of_cell_inv (l : list (option Z)) zs :
  mapM int_of_cell l = Ok zs → l = Some <$> zs.
Proof.
  revert zs. induction l as [|[z|] l IH]; intros zs; cbn.
  - by intros [= <-].
  - destruct (mapM int_of_cell l) as [zs'|e]; cbn; [|done].
    intros [= <-]. by rewrite (IH zs').
  - done.
Qed.

(** [sorted] returns the identifiers it was given. *)
Lemma py_sorted_elem_of (l ids : list (option Z)) c :
  py_sorted l = Ok ids → c ∈ ids ↔ c ∈ l.
Proof.
  destruct l as [|a [|b l]]; [by intros [= <-]..|].
  set (l' := a :: b :: l).
  change (py_sorted l')
    with (mapM int_of_cell l' ≫= λ zs, Ok (Some <$> merge_sort Z.le zs)).
  destruct (mapM int_of_cell l') as [zs|e] eqn:E; [|done]. cbn.
  intros [= <-]. rewrite (mapM_int_of_cell_inv _ _ E).
  by rewrite merge_sort_Permutation.
Qed.

(** In a list of two or more identifiers, a missing identifier makes
    [sorted] fail. *)
Lemma py_sorted_None (l : list (option Z)) z :
  None ∈ l → Some z ∈ l → py_sorted l = Err TypeError.
Proof.
  intros Hn Hs. destruct l as [|a [|b l]].
  - by apply elem_of_nil in Hn.
  - apply list_elem_of_singleton in Hn. apply list_elem_of_singleton in Hs. congruence.
  - set (l' := a :: b :: l) in *.
    change (py_sorted l')
      with (mapM int_of_cell l' ≫= λ zs, Ok (Some <$> merge_sort Z.le zs)).
    by rewrite mapM_int_of_cell_None.
Qed.

Lemma build_date_map_range today i ids m (c : option Z) text :
  build_date_map today i ids m !! c = Some text →
  m !! c = Some text
  ∨ (c ∈ ids ∧ ∃ k, 0 ≤ k < 30 ∧ text = Date.isoformat (today - k)).
Proof.
  revert i m. induction ids as [|c0 ids IH]; intros i m; cbn; [by left|].
  intros [Hm|[Hin Hk]]%IH.
  - destruct (decide (c0 = c)) as [->|Hne].
    + rewrite lookup_insert_eq in Hm. injection Hm as <-.
      right. split; [left|]. exists (Z.of_nat i mod 30). split; [|done].
      apply Z.mod_pos_bound. lia.
    + rewrite lookup_insert_ne in Hm by done. by left.
  - right. split; [by right|done].
Qed.

Lemma build_date_map_is_Some today i ids m (c : option Z) :
  c ∈ ids → is_Some (build_date_map today i ids m !! c).
Proof.
  revert i m. induction ids as [|c0 ids IH]; intros i m Hin.
  - by apply elem_of_nil in Hin.
  - cbn. destruct (decide (c ∈ ids)) as [Hc|Hc]; [by apply IH|].
    apply elem_of_cons in Hin as [->|Hin]; [|done].
    rewrite build_date_map_other by done. rewrite lookup_insert_eq. by eexists.
Qed.

(** What a successful run of the flattener went through, with the
    identifiers that [sorted] returned. *)
Lemma extract_from_api_inv_dates today cp up df :
  extract_from_api today cp up = Ok df →
  ∃ um carts ids,
    user_map_of up = Ok um
    ∧ get_default (cp_carts cp) [] = Some carts
    ∧ (∀ c, c ∈ ids ↔ c ∈ cart_id <$> flatten um carts)
    ∧ df = with_order_date (build_date_map today 0 ids ∅) <$> flatten um carts.
Proof.
  unfold extract_from_api, user_map_of.
  destruct (py_iter (get_default (up_users up) [])) as [users|e]; [|done]. cbn.
  destruct (build_user_map ∅ users) as [um|e]; [|done]. cbn.
  destruct (get_default (cp_carts cp) []) as [carts|]; [|done]. cbn.
  destruct (flatten um carts) as [|r rows] eqn:Hrows.
  - intros [= <-]. exists um, carts, []. by rewrite Hrows.
  - destruct (py_sorted _) as [ids|e] eqn:Hs; [|done]. cbn. intros ->%typed_frame_inv.
    exists um, carts, ids. rewrite Hrows. split; [done|]. split; [done|].
    split; [|done]. intros c. rewrite (py_sorted_elem_of _ _ c Hs).
    unfold unique_carts. by rewrite elem_of_remove_dups.
Qed.

Lemma order_date_of_extracted_row today cp up df r :
  extract_from_api today cp up = Ok df →
  r ∈ df →
  (order_date r = None ↔ cart_id r = None)
  ∧ (∀ text, order_date r = Some text →
       ∃ k, 0 ≤ k < 30 ∧ text = Date.isoformat (today - k)).
Proof.
  intros (um & carts & ids & _ & _ & Hids & ->)%extract_from_api_inv_dates Hr.
  apply list_elem_of_fmap in Hr as (r0 & -> & Hr0).
  rewrite with_order_date_order_date, with_order_date_cart_id.
  destruct (cart_id r0) as [c|] eqn:Hc; cbn.
  - assert (Hin : Some c ∈ ids).
    { apply Hids, list_elem_of_fmap. eauto. }
    split.
    + destruct (build_date_map_is_Some today 0 ids ∅ (Some c) Hin) as [text ->].
      split; done.
    + intros text [Hm|[_ Hk]]%build_date_map_range; [|done].
      by rewrite lookup_empty in Hm.
  - split; done.
Qed.

(** A row of the frame has no order date exactly when its cart has no
    identifier; every order date that the flattener writes is the ISO text
    of one of the thirty days that end today. *)
Theorem order_dates_within_thirty_days today cp up df r :
  extract_from_api today cp up = Ok df →
  r ∈ df →
  (order_date r = None ↔ cart_id r = None)
  ∧ (∀ text, order_date r = Some text →
       ∃ k, 0 ≤ k < 30 ∧ text = Date.isoformat (today - k)).
Proof. apply order_date_of_extracted_row. Qed.

(** The three carts of the sample: each row has one of the thirty dates. *)
Lemma order_dates_within_thirty_days_witness :
  ∃ df r k,
    extract_from_api sample_today
      {| cp_carts := Val [sample_cart 5 10; sample_cart 1 10; sample_cart 3 10] |}
      sample_users = Ok df
    ∧ r ∈ df
    ∧ 0 ≤ k < 30
    ∧ order_date r = Some (Date.isoformat (sample_today - k)).
Proof.
  eexists _, _. 
  edestruct (order_dates_within_thirty_days sample_today
               {| cp_carts := Val [sample_cart 5 10; sample_cart 1 10; sample_cart 3 10] |}
               sample_users) as [_ Hk];
    [vm_compute; reflexivity|vm_compute; left|].
  destruct (Hk "2026-11-01"%string) as (k & Hk30 & Hiso); [reflexivity|].
  exists k. split; [vm_compute; reflexivity|]. split; [vm_compute; left|].
  split; [done|]. by rewrite <- Hiso.
Defined.

(** When a cart without identifier and a cart with one both have a
    product, [sorted] compares [None] with a number and the flattener fails
    with [TypeError]. *)
Theorem cart_without_id_among_others today cp up um carts c1 c2 :
  user_map_of up = Ok um →
  get_default (cp_carts cp) [] = Some carts →
  c1 ∈ carts → c2 ∈ carts →
  products_of c1 ≠ [] → products_of c2 ≠ [] →
  get (c_id c1) = None → is_Some (get (c_id c2)) →
  extract_from_api today cp up = Err TypeError.
Proof.
  intros Hum Hcarts Hc1 Hc2 Hp1 Hp2 Hn [z Hz].
  assert (Hrow : ∀ c, c ∈ carts → products_of c ≠ [] →
                      get (c_id c) ∈ cart_id <$> flatten um carts).
  { intros c Hc Hp. destruct (products_of c) as [|p ps] eqn:E; [done|].
    apply list_elem_of_fmap. exists (product_row um c p).
    split; [by rewrite product_row_cart_id|].
    apply elem_of_flatten. exists c, p. unfold products_of in E. rewrite E.
    split; [done|]. split; [left|done]. }
  pose proof (Hrow c1 Hc1 Hp1) as H1. pose proof (Hrow c2 Hc2 Hp2) as H2.
  rewrite Hn in H1. rewrite Hz in H2.
  unfold extract_from_api. unfold user_map_of in Hum.
  destruct (py_iter (get_default (up_users up) [])) as [users|e]; [|done].
  cbn in Hum |- *. rewrite Hum, Hcarts. cbn.
  destruct (flatten um carts) as [|r0 rows0] eqn:Hrows.
  { by apply elem_of_nil in H1. }
  rewrite (py_sorted_None _ z); [done| |];
    unfold unique_carts; by rewrite elem_of_remove_dups.
Qed.

Lemma cart_without_id_among_others_witness :
  extract_from_api sample_today
    {| cp_carts := Val [sample_cart 5 10; cart_without_id 10] |} sample_users
  = Err TypeError.
Proof.
  eapply (cart_without_id_among_others sample_today
            {| cp_carts := Val [sample_cart 5 10; cart_without_id 10] |}
            sample_users _ _ (cart_without_id 10) (sample_cart 5 10)).
  - vm_compute. reflexivity.
  - reflexivity.
  - right. left.
  - left.
  - done.
  - done.
  - reflexivity.
  - by eexists.
Defined.

(* ===================================================================== *)
(** * Further facts about text *)
(* ===================================================================== *)

Section TwoTrims.
Import Text.
Variables sp sp' : ascii → bool.

(** Trimming on the left and trimming on the right commute, also when
    they do not remove the same characters. *)
Lemma lstrip_rstrip_comm s : lstrip sp (rstrip sp' s) = rstrip sp' (lstrip sp s).
Proof.
  induction s as [|c s IH]; [done|].
  cbn [rstrip lstrip]. destruct (rstrip sp' s) as [|d t] eqn:E.
  - destruct (sp c) eqn:Ec.
    + rewrite <- IH. destruct (sp' c); cbn; by rewrite ?Ec.
    + cbn [rstrip]. rewrite E. destruct (sp' c); [done|]. cbn. by rewrite Ec.
  - cbn [lstrip]. destruct (sp c) eqn:Ec; [by rewrite <- IH|].
    cbn [rstrip]. by rewrite E.
Qed.

(** [sp'] removes no more than [sp] does. *)
Hypothesis finer : ∀ c, sp' c = true → sp c = true.

Lemma lstrip_absorb s : lstrip sp (lstrip sp' s) = lstrip sp s.
Proof.
  induction s as [|c s IH]; [done|]. cbn.
  destruct (sp' c) eqn:E'; [by rewrite (finer c E')|done].
Qed.

Lemma rstrip_absorb s : rstrip sp (rstrip sp' s) = rstrip sp s.
Proof.
  induction s as [|c s IH]; [done|]. cbn [rstrip].
  destruct (rstrip sp' s) as [|d t] eqn:E.
  - rewrite <- IH. cbn [rstrip]. destruct (sp' c) eqn:E'.
    + by rewrite (finer c E').
    + done.
  - rewrite <- IH. done.
Qed.

(** The coarser trim after the finer one is the coarser trim. *)
Lemma strip_with_absorb s : strip_with sp (strip_with sp' s) = strip_with sp s.
Proof.
  unfold strip_with.
  by rewrite lstrip_rstrip_comm, rstrip_absorb, lstrip_absorb.
Qed.

End TwoTrims.

(** The flattener's pass over the title leaves nothing for the normalizer
    to undo: both passes together are one lower-casing of the
    Python-stripped title. *)
Lemma title_two_passes s :
  Text.strip_chars (Text.to_lowercase (Text.py_strip
    (Text.strip_chars (Text.to_lowercase s))))
  = Text.to_lowercase (Text.py_strip s).
Proof.
  rewrite title_normal_form. unfold Text.strip_chars, Text.py_strip.
  rewrite (strip_with_to_lowercase _ is_whitespace_lower).
  rewrite (strip_with_to_lowercase _ py_isspace_lower).
  rewrite to_lowercase_idem. f_equal.
  apply strip_with_absorb, is_whitespace_py_isspace.
Qed.

(* ===================================================================== *)
(** * Further properties of the normalizer *)
(* ===================================================================== *)

(** No customer cell of a normalized row is null, and [age] is text. *)
Theorem customer_cells_never_null (df : DataFrame) :
  Forall
    (λ o, is_Some (first_name o) ∧ is_Some (last_name o)
          ∧ is_Some (customer_name o) ∧ is_Some (email o)
          ∧ is_Some (city o) ∧ is_Some (gender o)
          ∧ ∃ text, age o = AgeStr (Some text))
    (clean_and_transform df).
Proof.
  rewrite clean_and_transform_rows.
  apply Forall_fmap, Forall_forall. intros r _. unfold compose.
  rewrite normalize_row_first_name, normalize_row_last_name,
    normalize_row_customer_name, normalize_row_email, normalize_row_city,
    normalize_row_gender, normalize_row_age.
  assert (Hfill : ∀ c : option string, is_Some (fill_null "No Data"%string c))
    by (intros [s|]; by eexists).
  repeat (split; [apply Hfill|]).
  destruct (Hfill (cast_utf8 (age r))) as [text ->]. by exists text.
Qed.

(** A product title of a normalized row is in lower case and has no
    white space at either end, for Python and for Polars. *)
Theorem product_title_in_normal_form (df : DataFrame) :
  Forall
    (λ o, ∀ title, product_title o = Some title →
            Text.to_lowercase title = title
            ∧ Text.stripped Text.py_isspace title
            ∧ Text.stripped Text.is_whitespace title)
    (clean_and_transform df).
Proof.
  rewrite clean_and_transform_rows.
  apply Forall_fmap, Forall_forall. intros r _. unfold compose.
  rewrite normalize_row_product_title. intros title.
  destruct (product_title r) as [s|]; [|done]. cbn. intros [= <-].
  rewrite title_normal_form.
  assert (Hs : Text.stripped Text.py_isspace (Text.to_lowercase (Text.py_strip s))).
  { unfold Text.py_strip.
    rewrite <- (strip_with_to_lowercase _ py_isspace_lower).
    apply strip_with_stripped. }
  split; [apply to_lowercase_idem|]. split; [done|].
  by apply (stripped_finer Text.py_isspace _ is_whitespace_py_isspace).
Qed.

Lemma product_row_product_title um cart p :
  product_title (product_row um cart p) = get (p_title p).
Proof.
  unfold product_row. destruct (um !! get (c_userId cart)) as [u|]; [|done].
  by destruct (user_truthy u).
Qed.

Lemma with_order_date_product_id dm r :
  product_id (with_order_date dm r) = product_id r.
Proof. done. Qed.

Lemma with_order_date_product_title dm r :
  product_title (with_order_date dm r)
  = (λ s, Text.strip_chars (Text.to_lowercase s)) <$> product_title r.
Proof. done. Qed.

(** The title of a product after the flattener and the normalizer. *)
Lemma title_of_normalized_row um dm cart p :
  product_title (normalize_row (with_order_date dm (product_row um cart p)))
  = (λ s, Text.to_lowercase (Text.py_strip s)) <$> get (p_title p).
Proof.
  rewrite normalize_row_product_title, with_order_date_product_title,
    product_row_product_title.
  destruct (get (p_title p)) as [s|]; [|done].
  change (Some (Text.strip_chars (Text.to_lowercase (Text.py_strip
            (Text.strip_chars (Text.to_lowercase s)))))
          = Some (Text.to_lowercase (Text.py_strip s))).
  by rewrite title_two_passes.
Qed.

Lemma titles_of_cart um dm cart (ps : list Product) :
  product_title <$>
    (normalize_row <$>
      filter (λ r, is_Some (product_id r))
        (with_order_date dm <$> (product_row um cart <$> ps)))
  = (λ p, (λ s, Text.to_lowercase (Text.py_strip s)) <$> get (p_title p))
    <$> filter (λ p, is_Some (get (p_id p))) ps.
Proof.
  induction ps as [|p ps IH]; [done|].
  rewrite !fmap_cons, filter_cons, (filter_cons _ p).
  rewrite with_order_date_product_id, product_row_product_id.
  destruct (decide (is_Some (get (p_id p)))); [|done].
  by rewrite !fmap_cons, IH, title_of_normalized_row.
Qed.

(** After the flattener and the normalizer, the titles of the frame are
    the titles of the products that have an identifier, in the order of
    the payload, each stripped as Python does and lower-cased. The frame
    has a row: the frame that the flattener returns when it has no row has
    no column either, and is not an input of the normalizer. *)
Theorem titles_after_both_stages today cp up df carts :
  extract_from_api today cp up = Ok df →
  df ≠ [] →
  get_default (cp_carts cp) [] = Some carts →
  product_title <$> clean_and_transform df
  = (λ p, (λ s, Text.to_lowercase (Text.py_strip s)) <$> get (p_title p))
    <$> filter (λ p, is_Some (get (p_id p))) (carts ≫= products_of).
Proof.
  intros (um & carts' & dm & _ & Hc & ->)%extract_from_api_inv _ Hcarts.
  rewrite Hcarts in Hc. injection Hc as <-.
  rewrite clean_and_transform_rows. unfold flatten. clear Hcarts.
  induction carts as [|c carts IH]; [done|].
  rewrite !bind_cons, fmap_app, filter_app.
  rewrite (filter_app _ (with_order_date dm <$> cart_rows um c)).
  rewrite !fmap_app. f_equal; [apply titles_of_cart|apply IH].
Qed.

Lemma titles_after_both_stages_witness :
  ∃ df, extract_from_api sample_today {| cp_carts := Val [sample_cart 1 10] |}
          sample_users = Ok df
        ∧ product_title <$> clean_and_transform df = [Some "shirt"%string].
Proof.
  eexists. split; [vm_compute; reflexivity|].
  erewrite (titles_after_both_stages sample_today
              {| cp_carts := Val [sample_cart 1 10] |} sample_users);
    [|vm_compute; reflexivity|done|reflexivity].
  vm_compute. reflexivity.
Defined.

(* ===================================================================== *)
(** * Further properties of the aggregator *)
(* ===================================================================== *)




Lemma asc_nulls_last_trans a b c :
  asc_nulls_last a b = true → asc_nulls_last b c = true →
  asc_nulls_last a c = true.
Proof.
  destruct a, b, c; cbn; try done. rewrite !Z.leb_le. lia.
Qed.

Lemma daily_before_trans : Transitive DailySales.before.
Proof. intros a b c. apply asc_nulls_last_trans. Qed.

(** A list of distinct dates in the order of [ORDER BY order_date]: the
    dates in strictly ascending order, then the NULL if there is one. *)
Lemma sorted_dates_shape (l : list (option Date.t)) :
  StronglySorted (λ a b, asc_nulls_last a b = true) l → NoDup l →
  ∃ dated tail,
    l = (Some <$> dated) ++ tail
    ∧ (tail = [] ∨ tail = [None])
    ∧ StronglySorted Z.lt dated.
Proof.
  induction 1 as [|a l Hs IH Ha]; intros Hnd.
  - exists [], []. split; [done|]. split; [by left|constructor].
  - apply NoDup_cons in Hnd as [Hnin Hnd].
    destruct (IH Hnd) as (dated & tail & -> & Htail & Hlt).
    destruct a as [x|].
    + exists (x :: dated), tail. split; [done|]. split; [done|].
      constructor; [done|]. apply Forall_forall. intros y Hy.
      assert (Hin : Some y ∈ (Some <$> dated) ++ tail).
      { apply elem_of_app. left. apply list_elem_of_fmap. eauto. }
      pose proof (proj1 (Forall_forall _ _) Ha _ Hin) as Hle. cbn in Hle.
      apply Z.leb_le in Hle. assert (x ≠ y) by (intros ->; done). lia.
    + exists [], [None]. split; [|split; [by right|constructor]].
      destruct ((Some <$> dated) ++ tail) as [|b l'] eqn:E; [done|].
      pose proof (proj1 (Forall_forall _ _) Ha b) as Hb.
      destruct b as [y|].
      * by specialize (Hb ltac:(left)).
      * destruct Hnin. left.
Qed.

(** The daily sales list each date once, in strictly ascending order, and
    the row of the NULL date, if there is one, comes last. *)
Theorem daily_sales_dates_ascending (df : DataFrame) :
  ∃ dated tail,
    DailySales.order_date <$> daily_sales_csv (write_analytics df)
    = (Some <$> dated) ++ tail
    ∧ (tail = [] ∨ tail = [None])
    ∧ StronglySorted Z.lt dated.
Proof.
  unfold write_analytics. cbn [write_analytics_with daily_sales_csv].
  apply sorted_dates_shape.
  - apply (StronglySorted_fmap DailySales.order_date DailySales.before); [done|].
    pose proof daily_before_total. pose proof daily_before_trans.
    apply StronglySorted_merge_sort; apply _.
  - unfold daily_sales. rewrite merge_sort_Permutation, <- list_fmap_compose.
    apply (group_by_keys_NoDup Sales.order_date).
Qed.

Lemma group_by_nil {R K A} `{EqDecision K}
    (key : R → K) (init : A) (step : A → R → A) (rows : list R) :
  group_by key init step rows = [] ↔ rows = [].
Proof.
  split; [|by intros ->]. intros E.
  pose proof (group_by_keys_Permutation key init step rows) as Hp.
  rewrite E in Hp. symmetry in Hp. apply Permutation_nil_r in Hp.
  destruct rows as [|r rows]; [done|].
  assert (Hin : key r ∈ remove_dups (key <$> r :: rows))
    by (apply elem_of_remove_dups; left).
  rewrite Hp in Hin. by apply elem_of_nil in Hin.
Qed.

Lemma merge_sort_nil {A} (R : relation A) `{∀ x y, Decision (R x y)} (l : list A) :
  merge_sort R l = [] ↔ l = [].
Proof.
  split; [|by intros ->]. intros E.
  pose proof (merge_sort_Permutation R l) as Hp. rewrite E in Hp.
  by apply Permutation_nil_l in Hp.
Qed.

(** Each of the three tables is empty exactly when the frame is. *)
Theorem tables_empty_iff_frame_empty (df : DataFrame) :
  (revenue_by_product_csv (write_analytics df) = [] ↔ df = [])
  ∧ (customer_summary_csv (write_analytics df) = [] ↔ df = [])
  ∧ (daily_sales_csv (write_analytics df) = [] ↔ df = []).
Proof.
  assert (Hreg : register_sales df = [] ↔ df = []).
  { unfold register_sales, register_sales_with.
    split; [apply fmap_nil_inv|by intros ->]. }
  unfold write_analytics.
  cbn [write_analytics_with revenue_by_product_csv customer_summary_csv daily_sales_csv].
  fold (register_sales df).
  unfold revenue_by_product, customer_summary, customer_groups, daily_sales.
  split; [|split]; rewrite merge_sort_nil;
    (split; [intros E%fmap_nil_inv%group_by_nil; by apply Hreg|by intros ->]).
Qed.

(** In a normalized frame of the flattener, the customer name is a
    function of the user identifier. *)
Lemma normalized_name_follows_user_id today cp up df o1 o2 :
  extract_from_api today cp up = Ok df →
  o1 ∈ clean_and_transform df → o2 ∈ clean_and_transform df →
  user_id o1 = user_id o2 → customer_name o1 = customer_name o2.
Proof.
  intros Hex Ho1 Ho2.
  destruct (clean_extracted_row _ _ _ _ _ Hex Ho1) as (um & c1 & p1 & dm1 & Hum & ->).
  destruct (clean_extracted_row _ _ _ _ _ Hex Ho2) as (um' & c2 & p2 & dm2 & Hum' & ->).
  rewrite Hum in Hum'. injection Hum' as <-.
  rewrite !normalize_row_user_id, !with_order_date_user_id, !product_row_user_id.
  intros Hu. rewrite !normalize_row_customer_name.
  destruct (with_order_date_names dm1 (product_row um c1 p1)) as (_ & _ & ->).
  destruct (with_order_date_names dm2 (product_row um c2 p2)) as (_ & _ & ->).
  by destruct (product_row_same_user um c1 p1 c2 p2 Hu) as (_ & _ & -> & _).
Qed.

(** A column in which no cell is null. *)
Lemma has_null_false {A} (col : list (option A)) :
  Forall is_Some col → has_null col = false.
Proof. induction 1 as [|c col [a ->] _ IH]; [done|]. exact IH. Qed.

(** On a frame with a row that went through the flattener and the
    normalizer, and in which every row has a user identifier (the
    identifiers then reach DuckDB as integers), the customer summary has at
    most one row for a user identifier. *)
Theorem one_summary_row_per_user today cp up df :
  extract_from_api today cp up = Ok df →
  df ≠ [] →
  Forall (λ r, is_Some (user_id r)) df →
  NoDup (CustomerSummary.customer_id
         <$> customer_summary_csv (write_analytics (clean_and_transform df))).
Proof.
  intros Hex _ Hall. unfold write_analytics. cbn [write_analytics_with customer_summary_csv].
  fold (register_sales (clean_and_transform df)).
  assert (Hnn : has_null (user_id <$> clean_and_transform df) = false).
  { apply has_null_false, Forall_fmap, Forall_forall. intros o Ho. unfold compose.
    rewrite clean_and_transform_rows in Ho.
    apply list_elem_of_fmap in Ho as (r & -> & [_ Hr]%list_elem_of_filter).
    rewrite normalize_row_user_id.
    by apply (proj1 (Forall_forall _ _) Hall). }
  set (sales := register_sales (clean_and_transform df)).
  unfold customer_summary. rewrite merge_sort_Permutation, <- list_fmap_compose.
  change (CustomerSummary.customer_id ∘ _)
    with (@fst (option Z) (option string)
          ∘ @fst (option Z * option string) (gset Z * option F64.t)).
  rewrite list_fmap_compose.
  apply NoDup_fmap_2_strong; [|apply group_by_keys_NoDup].
  assert (Hkey : ∀ k, k ∈ (customer_groups sales).*1 →
            ∃ o, o ∈ clean_and_transform df ∧ k = (user_id o, customer_name o)).
  { intros k Hk. unfold customer_groups in Hk.
    rewrite group_by_keys_Permutation, elem_of_remove_dups in Hk.
    apply list_elem_of_fmap in Hk as (s & -> & Hs).
    apply elem_of_register_sales in Hs as (o & Ho & ->). exists o.
    split; [done|]. cbn. by rewrite Hnn. }
  intros k1 k2 (o1 & Ho1 & ->)%Hkey (o2 & Ho2 & ->)%Hkey. cbn. intros Hu.
  by rewrite Hu, (normalized_name_follows_user_id _ _ _ _ _ _ Hex Ho1 Ho2 Hu).
Qed.

(** Two carts of user 10 and one of user 11: two rows of summary. *)
Lemma one_summary_row_per_user_witness :
  ∃ df, extract_from_api sample_today
          {| cp_carts := Val [sample_cart 1 10; sample_cart 2 11; sample_cart 3 10] |}
          sample_users = Ok df
        ∧ NoDup (CustomerSummary.customer_id
                 <$> customer_summary_csv (write_analytics (clean_and_transform df)))
        ∧ CustomerSummary.customer_id
          <$> customer_summary_csv (write_analytics (clean_and_transform df))
          = [Some 10; Some 11].
Proof.
  eexists. split; [vm_compute; reflexivity|]. split.
  - eapply (one_summary_row_per_user sample_today
              {| cp_carts := Val [sample_cart 1 10; sample_cart 2 11; sample_cart 3 10] |}
              sample_users); [vm_compute; reflexivity|done|].
    vm_compute. repeat constructor; by eexists.
  - vm_compute. reflexivity.
Defined.

(* ===================================================================== *)
(** * Dates written and dates read *)
(* ===================================================================== *)

(** Each of the 365 day numbers of a year, leap or not, has its month and
    day. *)
Lemma month_and_day_checked leap n :
  0 ≤ n < 365 → month_and_day_ok leap n = true.
Proof.
  intros Hn.
  assert (H : forallb (λ k, month_and_day_ok true (Z.of_nat k) && month_and_day_ok false (Z.of_nat k))
                (seq 0 365) = true) by (vm_compute; reflexivity).
  rewrite forallb_forall in H. specialize (H (Z.to_nat n)).
  rewrite Z2Nat.id in H by lia.
  assert (Hin : In (Z.to_nat n) (seq 0 365)) by (apply in_seq; lia).
  apply H in Hin. apply andb_prop in Hin as [H1 H2]. by destruct leap.
Qed.

(** [ord2ymd] gives a day of the calendar, and [ymd2ord] takes it back to
    the ordinal. *)
Lemma ord2ymd_spec d :
  1 ≤ d ≤ max_ordinal →
  ∃ y m dd, Date.ord2ymd d = (y, m, dd)
            ∧ 1 ≤ y ≤ 9999 ∧ 1 ≤ m ≤ 12 ∧ 1 ≤ dd ≤ Date.days_in_month y m
            ∧ Date.ymd2ord y m dd = d.
Proof.
  intros Hd. unfold max_ordinal in Hd. unfold Date.ord2ymd. cbv zeta.
  change Date.DI400Y with 146097. change Date.DI100Y with 36524. change Date.DI4Y with 1461.
  set (n := d - 1).
  assert (Hnd : d = n + 1 ∧ 0 ≤ n ≤ 3652058) by (subst n; lia).
  clearbody n.
  set (n400 := n / 146097). set (r1 := n mod 146097).
  set (n100 := r1 / 36524). set (r2 := r1 mod 36524).
  set (n4 := r2 / 1461). set (r3 := r2 mod 1461).
  set (n1 := r3 / 365). set (r4 := r3 mod 365).
  assert (Hdec : n = n400 * 146097 + n100 * 36524 + n4 * 1461 + n1 * 365 + r4
                 ∧ 0 ≤ n400 ≤ 24 ∧ 0 ≤ n100 ≤ 4 ∧ 0 ≤ n4 ≤ 24 ∧ 0 ≤ n1 ≤ 4 ∧ 0 ≤ r4 < 365
                 ∧ (n100 = 4 → n4 = 0 ∧ n1 = 0 ∧ r4 = 0)
                 ∧ (n1 = 4 → r4 = 0 ∧ n4 ≤ 23)).
  { subst n400 r1 n100 r2 n4 r3 n1 r4. Z.div_mod_to_equations. lia. }
  destruct Hdec as (Hn & H400 & H100 & H4 & H1 & Hr4 & Hc100 & Hc1).
  clearbody n400 n100 n4 n1 r4. clear r1 r2 r3.
  set (L := (n1 =? 3) && (negb (n4 =? 24) || (n100 =? 3))).
  destruct ((n1 =? 4) || (n100 =? 4)) eqn:E.
  - assert (Hcase : n1 = 4 ∨ n100 = 4).
    { apply orb_prop in E as [E|E]; apply Z.eqb_eq in E; auto. }
    exists (n400 * 400 + 1 + n100 * 100 + n4 * 4 + n1 - 1), 12, 31.
    split; [done|]. split; [lia|]. split; [lia|].
    assert (Hleap : Date.is_leap (n400 * 400 + 1 + n100 * 100 + n4 * 4 + n1 - 1) = true).
    { unfold Date.is_leap.
      repeat match goal with
             | |- context [?a =? ?b] => destruct (Z.eqb_spec a b)
             end; try done; exfalso; Z.div_mod_to_equations; lia. }
    split.
    + unfold Date.days_in_month. change (Z.to_nat 12) with 12%nat. cbn. lia.
    + unfold Date.ymd2ord, Date.days_before_month, Date.days_before_year.
      rewrite Hleap. change (Z.to_nat 12) with 12%nat. cbn [nth andb].
      change (2 <? 12) with true. cbn [andb]. cbv zeta iota. Z.div_mod_to_equations. lia.
  - assert (Hn1 : n1 ≠ 4 ∧ n100 ≠ 4).
    { apply orb_false_elim in E as [E1 E2].
      apply Z.eqb_neq in E1. apply Z.eqb_neq in E2. done. }
    set (Y := n400 * 400 + 1 + n100 * 100 + n4 * 4 + n1).
    assert (Hleap : Date.is_leap Y = L).
    { unfold Date.is_leap, L, Y.
      repeat match goal with
             | |- context [?a =? ?b] => destruct (Z.eqb_spec a b)
             end; try done; exfalso; Z.div_mod_to_equations; lia. }
    assert (Hdby : Date.days_before_year Y = n - r4).
    { unfold Date.days_before_year, Y. cbv zeta. Z.div_mod_to_equations. lia. }
    pose proof (month_and_day_checked L r4 Hr4) as Hok.
    unfold month_and_day_ok in Hok.
    destruct (month_and_day L r4) as [m dd] eqn:Emd.
    exists Y, m, dd.
    repeat (apply andb_prop in Hok as [Hok ?]).
    split.
    { unfold month_and_day in Emd. cbv zeta in Emd.
      destruct (r4 <? _); injection Emd as <- <-; reflexivity. }
    split; [unfold Y; lia|]. split; [lia|].
    split.
    + unfold Date.days_in_month. rewrite Hleap. lia.
    + unfold Date.ymd2ord, Date.days_before_month. rewrite Hleap, Hdby. lia.
Qed.

Lemma digit_val_digit n : Date.digit_val (Date.digit n) = Some (n mod 10).
Proof.
  unfold Date.digit.
  assert (Hk : 0 ≤ n mod 10 < 10) by (apply Z.mod_pos_bound; lia).
  set (k := n mod 10) in *. clearbody k.
  assert (Hcases : k = 0 ∨ k = 1 ∨ k = 2 ∨ k = 3 ∨ k = 4 ∨ k = 5 ∨ k = 6
                   ∨ k = 7 ∨ k = 8 ∨ k = 9) by lia.
  by repeat (destruct Hcases as [->|Hcases]; [done|]); subst k.
Qed.

Lemma digit_cases (P : ascii → Prop) :
  P "0"%char → P "1"%char → P "2"%char → P "3"%char → P "4"%char → P "5"%char →
  P "6"%char → P "7"%char → P "8"%char → P "9"%char →
  ∀ n, P (Date.digit n).
Proof.
  intros H0 H1 H2 H3 H4 H5 H6 H7 H8 H9 n. unfold Date.digit.
  assert (Hk : 0 ≤ n mod 10 < 10) by (apply Z.mod_pos_bound; lia).
  set (k := n mod 10) in *. clearbody k.
  assert (Hcases : k = 0 ∨ k = 1 ∨ k = 2 ∨ k = 3 ∨ k = 4 ∨ k = 5 ∨ k = 6
                   ∨ k = 7 ∨ k = 8 ∨ k = 9) by lia.
  by repeat (destruct Hcases as [->|Hcases]; [done|]); subst k.
Qed.

(** A digit is neither white space nor a sign. *)
Lemma digit_not_space n : Text.is_whitespace (Date.digit n) = false.
Proof. by apply digit_cases. Qed.

Lemma digit_not_minus n : Ascii.eqb (Date.digit n) "-" = false.
Proof. by apply digit_cases. Qed.

Lemma digit_not_plus n : Ascii.eqb (Date.digit n) "+" = false.
Proof. by apply digit_cases. Qed.

(** A number below 10000 is read back from its four digits, and a number
    below 100 from its two digits, whatever follows them. *)
Lemma scan_year_four_digits y rest :
  0 ≤ y ≤ 9999 →
  Date.scan_year (Date.trim_start
    (Date.digit (y / 10 / 10 / 10) :: Date.digit (y / 10 / 10)
     :: Date.digit (y / 10) :: Date.digit y :: rest))
  = Some (y, rest).
Proof.
  intros Hy. cbn [Date.trim_start]. rewrite digit_not_space.
  cbn [Date.scan_year]. rewrite digit_not_minus, digit_not_plus.
  cbn [Date.scan_number Date.scan_digits Nat.pred]. rewrite !digit_val_digit.
  do 2 f_equal. Z.div_mod_to_equations. lia.
Qed.

Lemma scan_number_two_digits m rest :
  0 ≤ m ≤ 99 →
  Date.scan_number 2 (Date.trim_start (Date.digit (m / 10) :: Date.digit m :: rest))
  = Some (m, rest).
Proof.
  intros Hm. cbn [Date.trim_start]. rewrite digit_not_space.
  cbn [Date.scan_number Date.scan_digits Nat.pred]. rewrite !digit_val_digit.
  do 2 f_equal. Z.div_mod_to_equations. lia.
Qed.

Lemma days_in_month_le_31 y m : Date.days_in_month y m ≤ 31.
Proof.
  unfold Date.days_in_month. destruct ((m =? 2) && Date.is_leap y); [lia|].
  destruct (Z.to_nat m) as [|[|[|[|[|[|[|[|[|[|[|[|[|[|k]]]]]]]]]]]]]]; cbn; lia.
Qed.

Lemma strptime_isoformat_ordinal d :
  1 ≤ d ≤ max_ordinal → Date.strptime (Date.isoformat d) = Some d.
Proof.
  intros Hd.
  destruct (ord2ymd_spec d Hd) as (y & m & dd & E & Hy & Hm & Hdd & Hord).
  pose proof (days_in_month_le_31 y m) as H31.
  unfold Date.isoformat. rewrite E.
  cbv [Date.pad_dec append]. unfold Date.strptime.
  cbn [list_ascii_of_string].
  rewrite scan_year_four_digits by lia. cbn [mbind option_bind Date.literal].
  change (Ascii.eqb "-" "-") with true. cbn [mbind option_bind].
  rewrite scan_number_two_digits by lia. cbn [mbind option_bind Date.literal].
  change (Ascii.eqb "-" "-") with true. cbn [mbind option_bind].
  rewrite scan_number_two_digits by lia. cbn [mbind option_bind].
  assert (Hv : (Date.min_year <=? y) && (y <=? Date.max_year)
               && (1 <=? m) && (m <=? 12) && (1 <=? dd)
               && (dd <=? Date.days_in_month y m) = true).
  { unfold Date.min_year, Date.max_year.
    repeat (apply andb_true_intro; split); apply Z.leb_le; lia. }
  by rewrite Hv, Hord.
Qed.

(** The ISO text that [isoformat] writes for a day of the years 1 to 9999
    is read by [strptime] as the same day. *)
Theorem strptime_isoformat d :
  1 ≤ d ≤ max_ordinal → Date.strptime (Date.isoformat d) = Some d.
Proof. apply strptime_isoformat_ordinal. Qed.

Lemma strptime_isoformat_witness :
  Date.strptime (Date.isoformat sample_today) = Some sample_today.
Proof. apply strptime_isoformat. vm_compute. split; discriminate. Defined.

(** In a frame of the flattener, either every row has a cart identifier
    or none has. *)
Lemma extracted_cart_ids_all_or_none today cp up df r1 r2 :
  extract_from_api today cp up = Ok df →
  r1 ∈ df → r2 ∈ df → cart_id r1 = None → cart_id r2 = None.
Proof.
  unfold extract_from_api.
  destruct (py_iter (get_default (up_users up) [])) as [users|e]; [|done]. cbn.
  destruct (build_user_map ∅ users) as [um|e]; [|done]. cbn.
  destruct (get_default (cp_carts cp) []) as [carts|]; [|done]. cbn.
  destruct (flatten um carts) as [|r rows] eqn:Hrows.
  { intros [= <-] Hr1. by apply elem_of_nil in Hr1. }
  set (l := r :: rows) in *.
  destruct (py_sorted (unique_carts l)) as [ids|e] eqn:Hs; [|done]. cbn.
  intros ->%typed_frame_inv Hr1 Hr2.
  apply list_elem_of_fmap in Hr1 as (r1' & -> & Hr1).
  apply list_elem_of_fmap in Hr2 as (r2' & -> & Hr2).
  rewrite !with_order_date_cart_id. intros Hn.
  destruct (cart_id r2') as [z|] eqn:Hz; [|done].
  rewrite (py_sorted_None _ z) in Hs; [done| |];
    unfold unique_carts; rewrite elem_of_remove_dups; apply list_elem_of_fmap; eauto.
Qed.

Lemma normalize_row_order_date r : order_date (normalize_row r) = order_date r.
Proof. done. Qed.

Lemma normalize_row_cart_id r : cart_id (normalize_row r) = cart_id r.
Proof. done. Qed.

(** The date that the aggregator reads in a normalized row of the
    flattener: none when the cart has no identifier, else one of the
    thirty days that end today. *)
Lemma parsed_date_of_extracted_row today cp up df o :
  30 ≤ today ≤ max_ordinal →
  extract_from_api today cp up = Ok df →
  o ∈ clean_and_transform df →
  (cart_id o = None → parse_order_date (order_date o) = None)
  ∧ (is_Some (cart_id o) →
     ∃ k, 0 ≤ k < 30 ∧ parse_order_date (order_date o) = Some (today - k)).
Proof.
  intros Ht Hex. rewrite clean_and_transform_rows.
  intros (r & -> & [_ Hr]%list_elem_of_filter)%list_elem_of_fmap.
  rewrite normalize_row_order_date, normalize_row_cart_id.
  destruct (order_date_of_extracted_row _ _ _ _ _ Hex Hr) as [Hnone Hsome].
  split.
  - intros Hc. by rewrite (proj2 Hnone Hc).
  - intros [c Hc]. destruct (order_date r) as [text|] eqn:E.
    + destruct (Hsome text eq_refl) as (k & Hk & ->). exists k. split; [done|].
      cbn. apply strptime_isoformat_ordinal. lia.
    + rewrite (proj1 Hnone eq_refl) in Hc. done.
Qed.

(** With today between 0001-01-30 and 9999-12-31, the aggregator reads
    the date of every normalized row of the flattener whose cart has an
    identifier, as one of the thirty days that end today; the row of a cart
    without identifier has the NULL date. *)
Theorem order_dates_parse_back today cp up df o :
  30 ≤ today ≤ max_ordinal →
  extract_from_api today cp up = Ok df →
  o ∈ clean_and_transform df →
  (cart_id o = None → parse_order_date (order_date o) = None)
  ∧ (is_Some (cart_id o) →
     ∃ k, 0 ≤ k < 30 ∧ parse_order_date (order_date o) = Some (today - k)).
Proof. apply parsed_date_of_extracted_row. Qed.

Lemma order_dates_parse_back_witness :
  ∃ df o k,
    extract_from_api sample_today
      {| cp_carts := Val [sample_cart 5 10; sample_cart 1 10; sample_cart 3 10] |}
      sample_users = Ok df
    ∧ o ∈ clean_and_transform df
    ∧ 0 ≤ k < 30
    ∧ parse_order_date (order_date o) = Some (sample_today - k).
Proof.
  eexists _, _.
  edestruct (order_dates_parse_back sample_today
               {| cp_carts := Val [sample_cart 5 10; sample_cart 1 10; sample_cart 3 10] |}
               sample_users) as [_ Hk];
    [vm_compute; split; discriminate|vm_compute; reflexivity|vm_compute; left|].
  destruct Hk as (k & Hk30 & Hp); [by eexists|].
  exists k. split; [vm_compute; reflexivity|]. split; [vm_compute; left|].
  split; [done|]. exact Hp.
Defined.

(** Whatever the number of carts, the daily sales of a frame with a row
    that went through the flattener and the normalizer have at most thirty
    rows, and each has the NULL date or one of the thirty days that end
    today. *)
Theorem daily_sales_at_most_thirty_rows today cp up df :
  30 ≤ today ≤ max_ordinal →
  extract_from_api today cp up = Ok df →
  df ≠ [] →
  let table := daily_sales_csv (write_analytics (clean_and_transform df)) in
  (length table ≤ 30)%nat
  ∧ (∀ o, o ∈ table →
       DailySales.order_date o = None
       ∨ ∃ k, 0 ≤ k < 30 ∧ DailySales.order_date o = Some (today - k)).
Proof.
  intros Ht Hex _ table. subst table. unfold write_analytics.
  cbn [write_analytics_with daily_sales_csv].
  fold (register_sales (clean_and_transform df)).
  set (frame := clean_and_transform df).
  set (keys := DailySales.order_date <$> daily_sales (register_sales frame)).
  assert (Hnd : NoDup keys).
  { unfold keys, daily_sales. rewrite merge_sort_Permutation, <- list_fmap_compose.
    apply (group_by_keys_NoDup Sales.order_date). }
  assert (Hkey : ∀ d, d ∈ keys →
            ∃ o, o ∈ frame ∧ d = parse_order_date (order_date o)).
  { intros d Hd. unfold keys, daily_sales in Hd.
    rewrite merge_sort_Permutation, <- list_fmap_compose in Hd.
    change (DailySales.order_date ∘ _) with (@fst (option Date.t) (option F64.t)) in Hd.
    rewrite group_by_keys_Permutation, elem_of_remove_dups in Hd.
    apply list_elem_of_fmap in Hd as (s & -> & Hs).
    apply elem_of_register_sales in Hs as (o & Ho & ->). by exists o. }
  assert (Hwindow : ∀ d, d ∈ keys →
            d = None ∨ ∃ k, 0 ≤ k < 30 ∧ d = Some (today - k)).
  { intros d (o & Ho & ->)%Hkey.
    destruct (parsed_date_of_extracted_row _ _ _ _ _ Ht Hex Ho) as [Hn Hs].
    destruct (cart_id o) as [c|].
    - right. apply Hs. by eexists.
    - left. by apply Hn. }
  split.
  - rewrite <- (length_fmap DailySales.order_date). fold keys.
    destruct (decide (Exists (λ o, cart_id o = None) frame)) as [Hex1|Hall].
    + apply Exists_exists in Hex1 as (o1 & Ho1 & Hc1).
      assert (Hsub : keys ⊆+ [None]).
      { apply NoDup_submseteq; [done|]. intros d (o & Ho & ->)%Hkey.
        apply list_elem_of_singleton.
        apply (parsed_date_of_extracted_row _ _ _ _ _ Ht Hex Ho).
        unfold frame in Ho, Ho1. rewrite clean_and_transform_rows in Ho, Ho1.
        apply list_elem_of_fmap in Ho as (r & -> & [_ Hr]%list_elem_of_filter).
        apply list_elem_of_fmap in Ho1 as (r1 & -> & [_ Hr1]%list_elem_of_filter).
        rewrite normalize_row_cart_id in Hc1 |- *.
        by apply (extracted_cart_ids_all_or_none _ _ _ _ r1 r Hex). }
      apply submseteq_length in Hsub. cbn in Hsub. lia.
    + assert (Hsub : keys ⊆+ (λ k, Some (today - Z.of_nat k)) <$> seq 0 30).
      { apply NoDup_submseteq; [done|]. intros d (o & Ho & ->)%Hkey.
        destruct (cart_id o) as [c|] eqn:Hc.
        - destruct (proj2 (parsed_date_of_extracted_row _ _ _ _ _ Ht Hex Ho))
            as (k & Hk & ->); [by eexists|].
          apply list_elem_of_fmap. exists (Z.to_nat k).
          split; [f_equal; lia|]. apply elem_of_seq. lia.
        - destruct Hall. apply Exists_exists. eauto. }
      apply submseteq_length in Hsub. by rewrite length_fmap, length_seq in Hsub.
  - intros o Ho. apply Hwindow. unfold keys. apply list_elem_of_fmap. eauto.
Qed.

Lemma daily_sales_at_most_thirty_rows_witness :
  ∃ df,
    extract_from_api sample_today
      {| cp_carts := Val [sample_cart 5 10; sample_cart 1 10; sample_cart 3 10] |}
      sample_users = Ok df
    ∧ (length (daily_sales_csv (write_analytics (clean_and_transform df))) ≤ 30)%nat.
Proof.
  eexists. split; [vm_compute; reflexivity|].
  eapply (proj1 (daily_sales_at_most_thirty_rows sample_today
                   {| cp_carts := Val [sample_cart 5 10; sample_cart 1 10; sample_cart 3 10] |}
                   sample_users _ _ _ _)).
  Unshelve.
  - vm_compute. split; discriminate.
  - vm_compute. reflexivity.
  - done.
Defined.
